(** * Schema derivation of kaiwadb ([kaiwadb/schema_mapping.py])

    A shallow embedding of [map_to_type] and [map_documents_to_tables]:
    the recursive walk that turns a host-language type annotation into a
    schema node, and the assembly of one [Table] per document class.

    Python's run-time type objects are modelled by the inductive type
    [pytype]; exceptions by the [Raise] outcome; the iteration order of a
    Python [set], which the language leaves unspecified, by a section
    variable [set_iter] constrained only to enumerate the distinct elements
    of its argument. *)

From Stdlib Require Import String List Bool Arith ZArith Lia Permutation.
Import ListNotations.
Local Open Scope string_scope.
Local Open Scope list_scope.
Set Warnings "-register-all,-notation-for-abbreviation".

(** ** Generic helpers *)

Section ListEqb.
Context {A : Type} (eqb : A -> A -> bool).

Fixpoint list_eqb (l l' : list A) : bool :=
  match l, l' with
  | [], [] => true
  | x :: r, x' :: r' => eqb x x' && list_eqb r r'
  | _, _ => false
  end.

Definition option_eqb (o o' : option A) : bool :=
  match o, o' with
  | Some x, Some x' => eqb x x'
  | None, None => true
  | _, _ => false
  end.

(** Membership test and duplicate removal keeping first occurrences. *)
Fixpoint memb (x : A) (l : list A) : bool :=
  match l with
  | [] => false
  | y :: r => eqb x y || memb x r
  end.

Fixpoint dedup_acc (seen l : list A) : list A :=
  match l with
  | [] => []
  | x :: r => if memb x seen then dedup_acc seen r else x :: dedup_acc (x :: seen) r
  end.

Definition dedup (l : list A) : list A := dedup_acc [] l.
End ListEqb.

(** ** The host-language types the introspector inspects *)

(** [PrimitiveType] of [kaiwadb.models.instance]: the closed enumeration of
    schema primitive kinds (the values of the [PRIMITIVES] table). *)
Inductive PrimitiveType : Type :=
| BOOL | INTEGER | FLOAT | STRING | DATETIME | DATE | TIME | OID | UUID.

(** Plain classes, i.e. classes that subclass neither [Enum] nor
    [BaseModel]: the nine keys of [PRIMITIVES], [NoneType], and any other
    class ([bytes], bare [list], [dict], ...), identified by its
    qualified name. *)
Inductive pyclass : Type :=
| py_bool | py_int | py_float | py_str
| py_datetime | py_date | py_time | py_ObjectId | py_UUID
| py_NoneType
| py_class (qualname : string).

(** The literal value of an enumeration member. *)
Inductive pyvalue : Type :=
| VStr (s : string)
| VInt (z : Z).

(** A parametrised generic is either an instance of [types.GenericAlias]
    (written [list[int]], [dict[str, int]]) or an alias of the [typing]
    module ([typing.List], [typing.Dict[str, int]]).  The two differ in how
    [issubclass] treats them. *)
Inductive alias_kind : Type := BuiltinAlias | TypingAlias.

(** [get_origin] of a parametrised generic that is not a union. *)
Inductive generic_origin : Type :=
| origin_list
| origin_other (name : string).

(** pydantic's [FieldInfo], reduced to the three attributes read by
    [map_to_type]. *)
Record FieldInfo (A : Type) : Type := mkFieldInfo {
  field_alias : option string;
  field_description : option string;
  field_annotation : option A
}.
Arguments mkFieldInfo {A} _ _ _.
Arguments field_alias {A} _.
Arguments field_description {A} _.
Arguments field_annotation {A} _.

(** Modelled from the spec: the class [Document] of [kaiwadb.document] is
    not part of the sources at hand.  A model class exposes its
    [__name__], the optional class attributes [__collection__] and
    [__table__] (absent, i.e. [None], on a class that does not declare
    them) and [model_fields], the declared fields in declaration order. *)
Record ModelClass (A : Type) : Type := mkModelClass {
  cls_name : string;
  cls_collection : option string;
  cls_table : option string;
  model_fields : list (string * FieldInfo A)
}.
Arguments mkModelClass {A} _ _ _ _.
Arguments cls_name {A} _.
Arguments cls_collection {A} _.
Arguments cls_table {A} _.
Arguments model_fields {A} _.

(** A type annotation.
    - [TClass c]: a plain class;
    - [TEnum name members]: a subclass of [Enum] called [name]; [members]
      is what iterating over the class yields: the member names with their
      values, in definition order;
    - [TModel cls]: a subclass of [BaseModel];
    - [TUnion args]: an annotation whose [get_origin] is [Union] or
      [UnionType], with [get_args] = [args];
    - [TGeneric kind origin args]: any other parametrised generic.

    Type objects are compared as terms: two classes are the same class when
    they have the same name and the same definition. *)
Inductive pytype : Type :=
| TClass (c : pyclass)
| TEnum (name : string) (members : list (string * pyvalue))
| TModel (cls : ModelClass pytype)
| TUnion (args : list pytype)
| TGeneric (kind : alias_kind) (origin : generic_origin) (args : list pytype).

Definition NoneType : pytype := TClass py_NoneType.

Definition is_none (t : pytype) : bool :=
  match t with
  | TClass py_NoneType => true
  | _ => false
  end.

Definition is_union (t : pytype) : bool :=
  match t with
  | TUnion _ => true
  | _ => false
  end.

(** *** Equality of type objects *)

Definition pyclass_eqb (c c' : pyclass) : bool :=
  match c, c' with
  | py_bool, py_bool | py_int, py_int | py_float, py_float | py_str, py_str
  | py_datetime, py_datetime | py_date, py_date | py_time, py_time
  | py_ObjectId, py_ObjectId | py_UUID, py_UUID
  | py_NoneType, py_NoneType => true
  | py_class n, py_class n' => String.eqb n n'
  | _, _ => false
  end.

Definition pyvalue_eqb (v v' : pyvalue) : bool :=
  match v, v' with
  | VStr s, VStr s' => String.eqb s s'
  | VInt z, VInt z' => Z.eqb z z'
  | _, _ => false
  end.

Definition member_eqb (m m' : string * pyvalue) : bool :=
  String.eqb (fst m) (fst m') && pyvalue_eqb (snd m) (snd m').

Definition alias_kind_eqb (k k' : alias_kind) : bool :=
  match k, k' with
  | BuiltinAlias, BuiltinAlias | TypingAlias, TypingAlias => true
  | _, _ => false
  end.

Definition generic_origin_eqb (o o' : generic_origin) : bool :=
  match o, o' with
  | origin_list, origin_list => true
  | origin_other n, origin_other n' => String.eqb n n'
  | _, _ => false
  end.

Definition field_eqb {A : Type} (eqb : A -> A -> bool)
    (f f' : string * FieldInfo A) : bool :=
  String.eqb (fst f) (fst f')
  && option_eqb String.eqb (field_alias (snd f)) (field_alias (snd f'))
  && option_eqb String.eqb (field_description (snd f)) (field_description (snd f'))
  && option_eqb eqb (field_annotation (snd f)) (field_annotation (snd f')).

Fixpoint pytype_eqb (x y : pytype) {struct x} : bool :=
  match x, y with
  | TClass c, TClass c' => pyclass_eqb c c'
  | TEnum n ms, TEnum n' ms' => String.eqb n n' && list_eqb member_eqb ms ms'
  | TModel c, TModel c' =>
      String.eqb (cls_name c) (cls_name c')
      && option_eqb String.eqb (cls_collection c) (cls_collection c')
      && option_eqb String.eqb (cls_table c) (cls_table c')
      && list_eqb (field_eqb pytype_eqb) (model_fields c) (model_fields c')
  | TUnion l, TUnion l' => list_eqb pytype_eqb l l'
  | TGeneric k o l, TGeneric k' o' l' =>
      alias_kind_eqb k k' && generic_origin_eqb o o' && list_eqb pytype_eqb l l'
  | _, _ => false
  end.

(** Nesting depth of an annotation: the recursion of [map_to_type] descends
    by one level at each call. *)
Definition field_depth {A : Type} (d : A -> nat) (f : string * FieldInfo A) : nat :=
  match field_annotation (snd f) with
  | Some a => d a
  | None => 0
  end.

Fixpoint depth (t : pytype) : nat :=
  match t with
  | TClass _ | TEnum _ _ => 0
  | TModel cls => S (list_max (map (field_depth depth) (model_fields cls)))
  | TUnion args => S (list_max (map depth args))
  | TGeneric _ _ args => S (list_max (map depth args))
  end.

(** ** The schema node model *)

(** Modelled from the spec: [kaiwadb.models.instance] is not part of the
    sources at hand.  A [Variant] is a literal value with an optional
    alias. *)
Record Variant : Type := mkVariant {
  variant_value : pyvalue;
  variant_alias : option string
}.

(** Modelled from the spec: the five node classes of
    [kaiwadb.models.instance], each with the shared attributes [alias],
    [description] and [optional] and its own payload.  [properties] is a
    Python [dict]: an association list in insertion order. *)
Inductive SchemaNode : Type :=
| PrimitiveField (alias description : option string) (optional : bool)
    (type : PrimitiveType)
| ArrayField (alias description : option string) (optional : bool)
    (item : SchemaNode)
| UnionField (alias description : option string) (optional : bool)
    (types : list SchemaNode)
| EnumField (alias description : option string) (optional : bool)
    (name : string) (variants : list Variant)
| ObjectField (alias description : option string) (optional : bool)
    (properties : list (string * SchemaNode)).

(** Modelled from the spec: [Table] of [kaiwadb.models.instance]. *)
Record Table : Type := mkTable {
  table_name : string;
  table_alias : string;
  table_fields : list (string * SchemaNode)
}.

Definition node_alias (n : SchemaNode) : option string :=
  match n with
  | PrimitiveField a _ _ _ | ArrayField a _ _ _ | UnionField a _ _ _
  | EnumField a _ _ _ _ | ObjectField a _ _ _ => a
  end.

Definition node_description (n : SchemaNode) : option string :=
  match n with
  | PrimitiveField _ d _ _ | ArrayField _ d _ _ | UnionField _ d _ _
  | EnumField _ d _ _ _ | ObjectField _ d _ _ => d
  end.

Definition node_optional (n : SchemaNode) : bool :=
  match n with
  | PrimitiveField _ _ o _ | ArrayField _ _ o _ | UnionField _ _ o _
  | EnumField _ _ o _ _ | ObjectField _ _ o _ => o
  end.

Definition set_optional (o : bool) (n : SchemaNode) : SchemaNode :=
  match n with
  | PrimitiveField a d _ t => PrimitiveField a d o t
  | ArrayField a d _ i => ArrayField a d o i
  | UnionField a d _ ts => UnionField a d o ts
  | EnumField a d _ nm vs => EnumField a d o nm vs
  | ObjectField a d _ ps => ObjectField a d o ps
  end.

(** Every [UnionField] of the tree has at least two members. *)
Fixpoint unions_ok (n : SchemaNode) : bool :=
  match n with
  | PrimitiveField _ _ _ _ | EnumField _ _ _ _ _ => true
  | ArrayField _ _ _ i => unions_ok i
  | UnionField _ _ _ ts => Nat.leb 2 (length ts) && forallb unions_ok ts
  | ObjectField _ _ _ ps => forallb (fun kv => unions_ok (snd kv)) ps
  end.

(** *** Python dictionaries as association lists *)

(** [d[k] = v]: a key already present keeps its position and takes the new
    value; a new key is appended. *)
Fixpoint dict_set {V : Type} (k : string) (v : V) (d : list (string * V))
    : list (string * V) :=
  match d with
  | [] => [(k, v)]
  | (k', v') :: r =>
      if String.eqb k k' then (k, v) :: r else (k', v') :: dict_set k v r
  end.

Fixpoint dict_get {V : Type} (k : string) (d : list (string * V)) : option V :=
  match d with
  | [] => None
  | (k', v') :: r => if String.eqb k k' then Some v' else dict_get k r
  end.

Definition dict_keys {V : Type} (d : list (string * V)) : list string :=
  map fst d.

(** [a or b] on an optional string: [None] and the empty string are falsy. *)
Definition or_else (a : option string) (b : string) : string :=
  match a with
  | Some s => if String.eqb s "" then b else s
  | None => b
  end.

(** ** Outcomes: a value, a raised exception, or exhausted fuel *)

Inductive exn : Type :=
| NotImplementedError (unsupported : pytype)
    (* "KaiwaDB does not support {unsupported}" *)
| TypeError (msg : string)
| AttributeError (attr : string).

Inductive outcome (A : Type) : Type :=
| Ok (a : A)
| Raise (e : exn)
| OutOfFuel.
Arguments Ok {A} _.
Arguments Raise {A} _.
Arguments OutOfFuel {A}.

Definition bind {A B : Type} (m : outcome A) (k : A -> outcome B) : outcome B :=
  match m with
  | Ok a => k a
  | Raise e => Raise e
  | OutOfFuel => OutOfFuel
  end.

Notation "x <- m ;; k" := (bind m (fun x => k))
  (at level 61, m at next level, right associativity).

Definition omap {A B : Type} (f : A -> B) (m : outcome A) : outcome B :=
  x <- m ;; Ok (f x).

(** A list comprehension whose element expression may raise: elements are
    evaluated left to right and the first exception aborts. *)
Fixpoint mapM {A B : Type} (f : A -> outcome B) (l : list A) : outcome (list B) :=
  match l with
  | [] => Ok []
  | x :: r => y <- f x ;; ys <- mapM f r ;; Ok (y :: ys)
  end.

(** ** The primitive catalog *)

(** The dictionary [PRIMITIVES] of [map_to_type]: nine classes are keys. *)
Definition PRIMITIVES (c : pyclass) : option PrimitiveType :=
  match c with
  | py_bool => Some BOOL
  | py_int => Some INTEGER
  | py_float => Some FLOAT
  | py_str => Some STRING
  | py_datetime => Some DATETIME
  | py_date => Some DATE
  | py_time => Some TIME
  | py_ObjectId => Some OID
  | py_UUID => Some UUID
  | py_NoneType | py_class _ => None
  end.

(** [PRIMITIVES.get(annotation)]: only a plain class can be a key. *)
Definition primitive_of (annotation : pytype) : option PrimitiveType :=
  match annotation with
  | TClass c => PRIMITIVES c
  | _ => None
  end.

(** ** Enumerations *)

Definition enum_name (annotation : pytype) : string :=
  match annotation with
  | TEnum name _ => name
  | _ => ""
  end.

Definition enum_members (annotation : pytype) : list (string * pyvalue) :=
  match annotation with
  | TEnum _ members => members
  | _ => []
  end.

(** [variant.name != variant.value]: a name is a string, so it differs from
    every value that is not a string. *)
Definition name_differs (name : string) (value : pyvalue) : bool :=
  match value with
  | VStr s => negb (String.eqb name s)
  | VInt _ => true
  end.

Definition variant_of (member : string * pyvalue) : Variant :=
  let (name, value) := member in
  mkVariant value (if name_differs name value then Some name else None).

Definition fields_of (annotation : pytype) : list (string * FieldInfo pytype) :=
  match annotation with
  | TModel cls => model_fields cls
  | _ => []
  end.

(** One concrete iteration order of a set: first occurrences, in order. *)
Definition set_first (l : list pytype) : list pytype := dedup pytype_eqb l.

Definition not_a_class : exn := TypeError "issubclass() arg 1 must be a class".

(** ** The type introspector *)

Definition derive_fn : Type :=
  pytype -> option string -> option string -> bool -> outcome SchemaNode.

Section Introspector.

(** The order in which a [set] built from a tuple of types is iterated. *)
Variable set_iter : list pytype -> list pytype.

(** Whether the metaclass of [BaseModel] answers [False] to a subclass
    check on an object that is not a class (recent pydantic) or lets
    [ABCMeta] raise [TypeError] (older pydantic). *)
Variable subclasscheck_guarded : bool.

(** [issubclass(annotation, Enum)].  An alias of the [typing] module is
    not a class and makes [issubclass] raise; a [types.GenericAlias]
    forwards [__bases__] to its origin, so the check answers [False]. *)
Definition issubclass_Enum (annotation : pytype) : outcome bool :=
  match annotation with
  | TEnum _ _ => Ok true
  | TClass _ | TModel _ => Ok false
  | TGeneric BuiltinAlias _ _ => Ok false
  | TGeneric TypingAlias _ _ | TUnion _ => Raise not_a_class
  end.

(** [issubclass(annotation, BaseModel)]. *)
Definition issubclass_BaseModel (annotation : pytype) : outcome bool :=
  match annotation with
  | TModel _ => Ok true
  | TClass _ | TEnum _ _ => Ok false
  | TGeneric _ _ _ | TUnion _ =>
      if subclasscheck_guarded then Ok false else Raise not_a_class
  end.

Section Body.
(** The function called at the recursive call sites. *)
Variable self : derive_fn.

(** The dictionary comprehension of lines 109-113, with [acc] the
    dictionary built so far. *)
Fixpoint properties_of (items : list (string * FieldInfo pytype))
    (acc : list (string * SchemaNode)) : outcome (list (string * SchemaNode)) :=
  match items with
  | [] => Ok acc
  | (name, field) :: rest =>
      match field_annotation field with
      | None => properties_of rest acc
      | Some ann =>
          v <- self ann (Some name) (field_description field) false ;;
          properties_of rest (dict_set (or_else (field_alias field) name) v acc)
      end
  end.

(** Lines 87-116: catalog, enumeration, structured type, failure. *)
Definition map_class (annotation : pytype) (alias description : option string)
    (optional : bool) : outcome SchemaNode :=
  match primitive_of annotation with
  | Some type => Ok (PrimitiveField alias description optional type)
  | None =>
      is_enum <- issubclass_Enum annotation ;;
      if is_enum : bool then
        Ok (EnumField alias description optional (enum_name annotation)
              (map variant_of (enum_members annotation)))
      else
        is_model <- issubclass_BaseModel annotation ;;
        if is_model : bool then
          properties <- properties_of (fields_of annotation) [] ;;
          Ok (ObjectField alias description optional properties)
        else Raise (NotImplementedError annotation)
  end.

(** Lines 64-116: one call of [map_to_type]. *)
Definition map_to_type_body (annotation : pytype) (alias description : option string)
    (optional : bool) : outcome SchemaNode :=
  match annotation with
  | TUnion type_args =>
      let args := set_iter type_args in
      let optional := existsb is_none args in
      let args :=
        if optional then filter (fun a => negb (is_none a)) args else args in
      match args with
      | [a] => self a alias description optional
      | _ =>
          types <- mapM (fun a => self a None None false) args ;;
          Ok (UnionField alias description optional types)
      end
  | TGeneric _ origin_list [a] =>
      item <- self a None None false ;;
      Ok (ArrayField alias description optional item)
  | _ => map_class annotation alias description optional
  end.
End Body.

(** The members of a union that are left after [args -= {NoneType}], in
    the order in which the set is iterated. *)
Definition members (type_args : list pytype) : list pytype :=
  let args := set_iter type_args in
  if existsb is_none args then filter (fun a => negb (is_none a)) args else args.

Fixpoint map_to_type_fuel (fuel : nat) : derive_fn :=
  match fuel with
  | O => fun _ _ _ _ => OutOfFuel
  | S n => map_to_type_body (map_to_type_fuel n)
  end.

(** [map_to_type]: the nesting depth of the annotation bounds the depth
    of the recursion. *)
Definition map_to_type : derive_fn :=
  fun annotation => map_to_type_fuel (S (depth annotation)) annotation.

(** ** The table assembler *)

Definition table_of (doc : ModelClass pytype) : outcome Table :=
  let name := or_else (cls_collection doc) (or_else (cls_table doc) (cls_name doc)) in
  let alias := cls_name doc in
  node <- map_to_type (TModel doc) None None false ;;
  match node with
  | ObjectField _ _ _ properties => Ok (mkTable name alias properties)
  | _ => Raise (AttributeError "properties")
  end.

Definition map_documents_to_tables (documents : list (ModelClass pytype))
    : outcome (list Table) :=
  mapM table_of documents.

End Introspector.

(** ** Vocabulary of the specification *)

(** The key under which a declared field is stored: [field.alias or name]. *)
Definition field_key (f : string * FieldInfo pytype) : string :=
  or_else (field_alias (snd f)) (fst f).

(** The declared fields that carry an annotation, in declaration order,
    each with its annotation. *)
Fixpoint annotated (items : list (string * FieldInfo pytype))
    : list (string * FieldInfo pytype * pytype) :=
  match items with
  | [] => []
  | (name, field) :: rest =>
      match field_annotation field with
      | Some ann => (name, field, ann) :: annotated rest
      | None => annotated rest
      end
  end.

Definition annotated_key (f : string * FieldInfo pytype * pytype) : string :=
  field_key (fst f).

(** The call made for one annotated field:
    [map_to_type(field.annotation, name, field.description)]. *)
Definition derive_field (self : derive_fn) (f : string * FieldInfo pytype * pytype)
    : outcome SchemaNode :=
  self (snd f) (Some (fst (fst f))) (field_description (snd (fst f))) false.

(** One entry of the dictionary comprehension: key and value. *)
Definition derive_entry (self : derive_fn) (f : string * FieldInfo pytype * pytype)
    : outcome (string * SchemaNode) :=
  v <- derive_field self f ;; Ok (annotated_key f, v).

(** The dictionary obtained by storing the pairs of [kvs] one after the
    other into [acc]. *)
Definition dict_update {V : Type} (acc kvs : list (string * V)) : list (string * V) :=
  fold_left (fun d kv => dict_set (fst kv) (snd kv) d) kvs acc.

Definition dict_of {V : Type} (kvs : list (string * V)) : list (string * V) :=
  dict_update [] kvs.

(** Python builds a union from at least two distinct members; a union of
    one member is that member.  [well_formed] says so of every union of an
    annotation. *)
Fixpoint well_formed (t : pytype) : bool :=
  match t with
  | TClass _ | TEnum _ _ => true
  | TModel cls =>
      forallb (fun f => match field_annotation (snd f) with
                        | Some a => well_formed a
                        | None => true
                        end) (model_fields cls)
  | TUnion args =>
      Nat.leb 2 (length (dedup pytype_eqb args)) && forallb well_formed args
  | TGeneric _ _ args => forallb well_formed args
  end.

(** A name is declared when the attribute holds a non-empty string. *)
Definition declares (attribute : option string) (s : string) : Prop :=
  attribute = Some s /\ s <> "".

Definition undeclared (attribute : option string) : Prop :=
  attribute = None \/ attribute = Some "".

(** A node that is a member of a union node: nothing of its own. *)
Definition bare_member (n : SchemaNode) : Prop :=
  node_optional n = false /\ node_alias n = None /\ node_description n = None.

(** ** Example inputs *)

Definition int_ : pytype := TClass py_int.
Definition str_ : pytype := TClass py_str.
Definition bytes_ : pytype := TClass (py_class "bytes").

(** [class Color(Enum): RED = "r"; GREEN = "g"]. *)
Definition Color : pytype := TEnum "Color" [("RED", VStr "r"); ("GREEN", VStr "g")].

(** [name: T = Field(alias=a)]. *)
Definition declared (name : string) (alias : option string) (t : pytype)
    : string * FieldInfo pytype :=
  (name, mkFieldInfo alias None (Some t)).

(** [class Person(Document): id: int; name: str = Field(alias="nm")]. *)
Definition Person : ModelClass pytype :=
  mkModelClass "Person" None None
    [declared "id" None int_; declared "name" (Some "nm") str_].

(** A document that sets [__collection__ = ""] and [__table__]. *)
Definition Orders : ModelClass pytype :=
  mkModelClass "Orders" (Some "") (Some "orders_tbl") [declared "id" None int_].

(** A field declared with [Field(alias="")]. *)
Definition Blank : ModelClass pytype :=
  mkModelClass "Blank" None None [declared "id" (Some "") int_].

(** Two fields renamed to the same key, and a field without annotation. *)
Definition Clash : ModelClass pytype :=
  mkModelClass "Clash" None None
    [declared "a" (Some "k") int_;
     ("skipped", mkFieldInfo None None None);
     declared "b" (Some "k") str_].

(** [class Post(Document): __collection__ = "posts"], with an optional
    field, a list of unions and an enumeration. *)
Definition Post : ModelClass pytype :=
  mkModelClass "Post" (Some "posts") None
    [declared "title" None (TUnion [str_; NoneType]);
     declared "tags" None (TGeneric BuiltinAlias origin_list [TUnion [int_; str_; NoneType]]);
     declared "color" None Color;
     declared "author" (Some "by") (TModel Person)].

(** ** Structural induction through the nested lists of [pytype] *)

Section PytypeInd.
Variable P : pytype -> Prop.

Definition P_field (f : string * FieldInfo pytype) : Prop :=
  match field_annotation (snd f) with
  | Some a => P a
  | None => True
  end.

Hypothesis HClass : forall c, P (TClass c).
Hypothesis HEnum : forall n ms, P (TEnum n ms).
Hypothesis HModel : forall cls, Forall P_field (model_fields cls) -> P (TModel cls).
Hypothesis HUnion : forall l, Forall P l -> P (TUnion l).
Hypothesis HGeneric : forall k o l, Forall P l -> P (TGeneric k o l).

Fixpoint pytype_nested_ind (t : pytype) : P t :=
  let fix args_ind (l : list pytype) : Forall P l :=
    match l with
    | [] => Forall_nil P
    | a :: r => Forall_cons a (pytype_nested_ind a) (args_ind r)
    end in
  match t with
  | TClass c => HClass c
  | TEnum n ms => HEnum n ms
  | TModel cls =>
      HModel cls
        ((fix fields_ind (l : list (string * FieldInfo pytype)) : Forall P_field l :=
            match l with
            | [] => Forall_nil P_field
            | f :: r =>
                Forall_cons f
                  (match field_annotation (snd f) as o
                         return match o with Some a => P a | None => True end
                   with
                   | Some a => pytype_nested_ind a
                   | None => I
                   end)
                  (fields_ind r)
            end) (model_fields cls))
  | TUnion l => HUnion l (args_ind l)
  | TGeneric k o l => HGeneric k o l (args_ind l)
  end.
End PytypeInd.

(** ** Vocabulary of the further properties *)

Definition set_alias (a : option string) (n : SchemaNode) : SchemaNode :=
  match n with
  | PrimitiveField _ d o t => PrimitiveField a d o t
  | ArrayField _ d o i => ArrayField a d o i
  | UnionField _ d o ts => UnionField a d o ts
  | EnumField _ d o nm vs => EnumField a d o nm vs
  | ObjectField _ d o ps => ObjectField a d o ps
  end.

Definition set_description (d : option string) (n : SchemaNode) : SchemaNode :=
  match n with
  | PrimitiveField a _ o t => PrimitiveField a d o t
  | ArrayField a _ o i => ArrayField a d o i
  | UnionField a _ o ts => UnionField a d o ts
  | EnumField a _ o nm vs => EnumField a d o nm vs
  | ObjectField a _ o ps => ObjectField a d o ps
  end.

(** The node [n] with another alias and description. *)
Definition relabel (a d : option string) (n : SchemaNode) : SchemaNode :=
  set_description d (set_alias a n).

(** The annotation is a union one of whose members is [NoneType]. *)
Definition admits_none (t : pytype) : bool :=
  match t with
  | TUnion args => existsb is_none args
  | _ => false
  end.

(** No member of the union is itself a union: Python flattens the unions
    it builds. *)
Definition flat_union (t : pytype) : bool :=
  match t with
  | TUnion args => forallb (fun x => negb (is_union x)) args
  | _ => true
  end.

(** The shape of the annotation and the class of the node agree. *)
Definition shape_matches (t : pytype) (n : SchemaNode) : bool :=
  match t, n with
  | TClass _, PrimitiveField _ _ _ _
  | TEnum _ _, EnumField _ _ _ _ _
  | TModel _, ObjectField _ _ _ _
  | TGeneric _ origin_list [_], ArrayField _ _ _ _ => true
  | _, _ => false
  end.

Fixpoint distinct (keys : list string) : bool :=
  match keys with
  | [] => true
  | k :: r => negb (existsb (String.eqb k) r) && distinct r
  end.

(** No object node of the tree has two properties with the same key. *)
Fixpoint keys_distinct (n : SchemaNode) : bool :=
  match n with
  | PrimitiveField _ _ _ _ | EnumField _ _ _ _ _ => true
  | ArrayField _ _ _ i => keys_distinct i
  | UnionField _ _ _ ts => forallb keys_distinct ts
  | ObjectField _ _ _ ps =>
      distinct (map fst ps) && forallb (fun kv => keys_distinct (snd kv)) ps
  end.

(** [u] is [t] or occurs in [t]: as a member of a union, a parameter of a
    generic or the annotation of a field, at any depth. *)
Fixpoint occurs_in (u t : pytype) : bool :=
  pytype_eqb u t
  || match t with
     | TClass _ | TEnum _ _ => false
     | TModel cls =>
         existsb (fun f => match field_annotation (snd f) with
                           | Some a => occurs_in u a
                           | None => false
                           end) (model_fields cls)
     | TUnion args => existsb (occurs_in u) args
     | TGeneric _ _ args => existsb (occurs_in u) args
     end.

(** The annotations that reach the last line of [map_to_type]: a plain
    class outside the catalog, or a [types.GenericAlias] that is not a list
    of one element type. *)
Definition refused (u : pytype) : bool :=
  match u with
  | TClass c => match PRIMITIVES c with Some _ => false | None => true end
  | TGeneric BuiltinAlias origin_list [_] => false
  | TGeneric BuiltinAlias _ _ => true
  | _ => false
  end.

(** A structured type whose second field has an unsupported annotation. *)
Definition Blob : ModelClass pytype :=
  mkModelClass "Blob" None None
    [declared "id" None int_; declared "raw" None bytes_; declared "size" None int_].

(** ** Database engines ([kaiwadb/models/engines.py]) *)

(** The eight subclasses of [DBEgnine]. *)
Inductive engine_class : Type :=
| Mongo | PostgreSQL | MySQL | MSSQL | Oracle | SQLite | MariaDB | ClickHouse.

(** The default of the field [type], a [Literal] of one string. *)
Definition engine_type (c : engine_class) : string :=
  match c with
  | Mongo => "mongo"
  | PostgreSQL => "postgres"
  | MySQL => "mysql"
  | MSSQL => "mssql"
  | Oracle => "oracle"
  | SQLite => "sqlite"
  | MariaDB => "mariadb"
  | ClickHouse => "clickhouse"
  end.

(** The value of an attribute of an engine. *)
Inductive attr : Type :=
| AStr (s : string)
| AInt (z : Z)
| ANone.

(** The keyword argument [version] of a constructor call: left out, [None]
    or an integer. *)
Inductive version_arg : Type :=
| NotGiven
| GivenNone
| Given (v : Z).

(** pydantic's verdict on the arguments of a constructor call; an error
    names the field and the kind of the error. *)
Inductive validated (A : Type) : Type :=
| Valid (a : A)
| ValidationError (field : string) (kind : string).
Arguments Valid {A} _.
Arguments ValidationError {A} _ _.

(** [Field(..., ge=0)] on an integer. *)
Definition check_ge_0 (v : Z) : validated (option attr) :=
  if (0 <=? v)%Z then Valid (Some (AInt v))
  else ValidationError "version" "greater_than_equal".

(** The field [version] as each class declares it: [int | None] with the
    default 8 on [Mongo], a required [int] on six classes, no such field
    on [ClickHouse] (a keyword argument that is no field is ignored). *)
Definition validate_version (c : engine_class) (version : version_arg)
    : validated (option attr) :=
  match c with
  | ClickHouse => Valid None
  | Mongo =>
      match version with
      | NotGiven => Valid (Some (AInt 8))
      | GivenNone => Valid (Some ANone)
      | Given v => check_ge_0 v
      end
  | _ =>
      match version with
      | NotGiven => ValidationError "version" "missing"
      | GivenNone => ValidationError "version" "int_type"
      | Given v => check_ge_0 v
      end
  end.

(** The [__dict__] of the instance that a constructor call returns: the
    fields in declaration order. *)
Definition new_engine (c : engine_class) (version : version_arg)
    : validated (list (string * attr)) :=
  match validate_version c version with
  | Valid v =>
      Valid (("type", AStr (engine_type c))
             :: match v with Some x => [("version", x)] | None => [] end)
  | ValidationError f k => ValidationError f k
  end.

(** [DBEgnine.__repr_args__], on the [__dict__] of the instance. *)
Definition repr_args (self_dict : list (string * attr)) : list (string * attr) :=
  filter (fun kv => negb (String.eqb (fst kv) "type")) self_dict.

(** ** The client ([kaiwadb/kaiwadb.py]) *)

(** [api_key or os.environ["KAIWADB_API_KEY"]], line 117: [environ] is the
    value of the variable, if set; [None] stands for [KeyError]. *)
Definition resolve_api_key (api_key environ : option string) : option string :=
  match api_key with
  | Some k => if String.eqb k "" then environ else Some k
  | None => environ
  end.

Inductive http_outcome : Type :=
| Returned
| HTTPError (status_code : Z).

(** [Response.raise_for_status] of requests: client and server errors
    raise. *)
Definition raise_for_status (status_code : Z) : http_outcome :=
  if ((400 <=? status_code) && (status_code <? 600))%Z then HTTPError status_code
  else Returned.

(** [_register_schema], lines 150-165, on the status code of the response:
    the lines logged and the outcome. *)
Definition register_schema (status_code : Z) : list string * http_outcome :=
  let log := ["Registering database schema"] in
  if (status_code =? 200)%Z then
    (log ++ ["Database schema registered"], Returned)
  else if (status_code =? 409)%Z then
    (log ++ ["Different database schema already registered with the same identifier"],
     Returned)
  else (log, raise_for_status status_code).

(** The class of the connection passed to [run]. *)
Inductive connection : Type :=
| PymongoDatabase
| SqlalchemyEngine
| ClickhouseClient
| OtherConnection.

Inductive run_outcome (R : Type) : Type :=
| Docs (docs : list R)
| Frame (rows : list R)
| RunNotImplemented (target : engine_class) (db : connection)
| ValueError.
Arguments Docs {R} _.
Arguments Frame {R} _.
Arguments RunNotImplemented {R} _ _.
Arguments ValueError {R}.

(** [list(islice(cursor, limit))]: [None] takes everything, a negative
    stop is refused. *)
Definition list_islice {R : Type} (cursor : list R) (limit : option Z)
    : run_outcome R :=
  match limit with
  | None => Docs cursor
  | Some n => if (n <? 0)%Z then ValueError else Docs (firstn (Z.to_nat n) cursor)
  end.

Section Run.
Variable R : Type.

(** [DataFrame.head] of pandas, left unspecified. *)
Variable head : option Z -> list R -> list R.

(** The [match] statement of [run], lines 302-320: [target] is the class
    of [pipeline.assembled.target] and [cursor] what the database answers
    to the assembled query. *)
Definition run (db : connection) (target : engine_class) (cursor : list R)
    (limit : option Z) : run_outcome R :=
  match db, target with
  | PymongoDatabase, Mongo => list_islice cursor limit
  | SqlalchemyEngine, PostgreSQL => list_islice cursor limit
  | ClickhouseClient, ClickHouse => Frame (head limit cursor)
  | _, _ => RunNotImplemented target db
  end.
End Run.

(** * Properties *)

(** ** Boolean equality decides equality *)

Section EqbFacts.
Context {A : Type} (eqb : A -> A -> bool).

Lemma list_eqb_spec (l : list A) :
  Forall (fun x => forall y, eqb x y = true <-> x = y) l ->
  forall l', list_eqb eqb l l' = true <-> l = l'.
Proof.
  induction 1 as [|x r Hx _ IH]; intros [|x' r']; simpl;
    try (split; [discriminate | discriminate]); try tauto.
  rewrite andb_true_iff, Hx, IH. split.
  - intros [-> ->]. reflexivity.
  - intros E. injection E as -> ->. split; reflexivity.
Qed.

Lemma option_eqb_spec (o : option A) :
  (forall x, o = Some x -> forall y, eqb x y = true <-> x = y) ->
  forall o', option_eqb eqb o o' = true <-> o = o'.
Proof.
  intros H [y|]; destruct o as [x|]; simpl;
    try (split; [discriminate | discriminate]); try tauto.
  rewrite (H x eq_refl). split; [intros -> | intros E; injection E as ->]; reflexivity.
Qed.

Hypothesis eqb_eq : forall x y, eqb x y = true <-> x = y.

Lemma memb_In (x : A) (l : list A) : memb eqb x l = true <-> In x l.
Proof.
  induction l as [|y r IH]; simpl.
  - split; [discriminate | tauto].
  - rewrite orb_true_iff, IH, eqb_eq. split; intros [E|E]; auto.
Qed.

Lemma dedup_acc_In (l seen : list A) (x : A) :
  In x (dedup_acc eqb seen l) <-> In x l /\ ~ In x seen.
Proof.
  revert seen. induction l as [|y r IH]; intros seen; simpl.
  - tauto.
  - destruct (memb eqb y seen) eqn:E.
    + apply memb_In in E. rewrite IH. split.
      * intros [H1 H2]. auto.
      * intros [[->|H1] H2]; [contradiction | auto].
    + assert (Hy : ~ In y seen) by (rewrite <- memb_In, E; discriminate).
      simpl. rewrite IH. simpl. split.
      * intros [->|[H1 H2]]; [auto | split; [auto | intros H; apply H2; auto]].
      * intros [[->|H1] H2]; [auto |].
        destruct (eqb y x) eqn:Eyx.
        -- apply eqb_eq in Eyx. auto.
        -- right. split; [assumption |]. intros [->|H]; [| contradiction].
           assert (eqb x x = true) by (apply eqb_eq; reflexivity). congruence.
Qed.

Lemma dedup_acc_NoDup (l seen : list A) : NoDup (dedup_acc eqb seen l).
Proof.
  revert seen. induction l as [|y r IH]; intros seen; simpl.
  - constructor.
  - destruct (memb eqb y seen); [apply IH |].
    constructor; [| apply IH].
    rewrite dedup_acc_In. simpl. intros [_ H]. apply H. auto.
Qed.

Lemma dedup_spec (l : list A) :
  NoDup (dedup eqb l) /\ (forall x, In x (dedup eqb l) <-> In x l).
Proof.
  split; [apply dedup_acc_NoDup |].
  intros x. unfold dedup. rewrite dedup_acc_In. simpl. tauto.
Qed.
End EqbFacts.

Lemma pyclass_eqb_eq (c c' : pyclass) : pyclass_eqb c c' = true <-> c = c'.
Proof.
  destruct c, c'; simpl; try rewrite String.eqb_eq;
    split; intros H; try discriminate; try reflexivity; congruence.
Qed.

Lemma pyvalue_eqb_eq (v v' : pyvalue) : pyvalue_eqb v v' = true <-> v = v'.
Proof.
  destruct v, v'; simpl; try rewrite String.eqb_eq; try rewrite Z.eqb_eq;
    split; intros H; try discriminate; congruence.
Qed.

Lemma member_eqb_eq (m m' : string * pyvalue) : member_eqb m m' = true <-> m = m'.
Proof.
  destruct m, m'. unfold member_eqb. simpl.
  rewrite andb_true_iff, String.eqb_eq, pyvalue_eqb_eq.
  split; [intros [-> ->]; reflexivity | intros E; injection E as -> ->; auto].
Qed.

Lemma alias_kind_eqb_eq (k k' : alias_kind) : alias_kind_eqb k k' = true <-> k = k'.
Proof. destruct k, k'; simpl; split; intros H; try discriminate; reflexivity. Qed.

Lemma generic_origin_eqb_eq (o o' : generic_origin) :
  generic_origin_eqb o o' = true <-> o = o'.
Proof.
  destruct o, o'; simpl; try rewrite String.eqb_eq;
    split; intros H; try discriminate; try reflexivity; congruence.
Qed.

Lemma string_option_eqb_eq (o o' : option string) :
  option_eqb String.eqb o o' = true <-> o = o'.
Proof. apply option_eqb_spec. intros x _ y. apply String.eqb_eq. Qed.

Lemma pytype_eqb_eq (x y : pytype) : pytype_eqb x y = true <-> x = y.
Proof.
  revert y. induction x as [c|n ms|cls IH|l IH|k o l IH] using pytype_nested_ind;
    intros y; destruct y as [c'|n' ms'|cls'|l'|k' o' l']; simpl;
    try (split; [discriminate | discriminate]).
  - rewrite pyclass_eqb_eq. split; congruence.
  - rewrite andb_true_iff, String.eqb_eq, list_eqb_spec
      by (apply Forall_forall; intros; apply member_eqb_eq).
    split; [intros [-> ->]; reflexivity | intros E; injection E as -> ->; auto].
  - rewrite !andb_true_iff, String.eqb_eq, !string_option_eqb_eq.
    rewrite list_eqb_spec.
    + destruct cls, cls'; simpl. split.
      * intros [[[-> ->] ->] ->]. reflexivity.
      * intros E. injection E as -> -> -> ->. auto.
    + eapply Forall_impl; [| exact IH].
      intros [fn [fa fd ft]] Hf [fn' [fa' fd' ft']]. unfold field_eqb, P_field in *.
      simpl in *. rewrite !andb_true_iff, String.eqb_eq, !string_option_eqb_eq.
      rewrite option_eqb_spec.
      * split; [intros [[[-> ->] ->] ->]; reflexivity
               | intros E; injection E as -> -> -> ->; auto].
      * intros a ->. exact Hf.
  - rewrite list_eqb_spec by exact IH. split; congruence.
  - rewrite !andb_true_iff, list_eqb_spec by exact IH.
    rewrite alias_kind_eqb_eq, generic_origin_eqb_eq.
    split; [intros [[-> ->] ->]; reflexivity | intros E; injection E as -> -> ->; auto].
Qed.

(** [set_first] is an admissible iteration order. *)
Lemma set_first_spec (l : list pytype) :
  NoDup (set_first l) /\ (forall x, In x (set_first l) <-> In x l).
Proof. apply dedup_spec. exact pytype_eqb_eq. Qed.

(** ** Outcomes of comprehensions *)

Lemma mapM_ext_In {A B : Type} (f g : A -> outcome B) (l : list A) :
  (forall x, In x l -> f x = g x) -> mapM f l = mapM g l.
Proof.
  induction l as [|x r IH]; intros H; simpl; [reflexivity |].
  rewrite (H x) by (left; reflexivity).
  rewrite IH by (intros y Hy; apply H; right; exact Hy).
  reflexivity.
Qed.

Lemma mapM_Ok_inv {A B : Type} (f : A -> outcome B) (l : list A) (ys : list B) :
  mapM f l = Ok ys -> Forall2 (fun x y => f x = Ok y) l ys.
Proof.
  revert ys. induction l as [|x r IH]; simpl; intros ys H.
  - injection H as <-. constructor.
  - destruct (f x) as [y| |] eqn:E; simpl in H; try discriminate.
    destruct (mapM f r) as [ys'| |]; simpl in H; try discriminate.
    injection H as <-. constructor; [exact E | apply IH; reflexivity].
Qed.

Lemma mapM_all_Ok {A B : Type} (f : A -> outcome B) (l : list A) :
  (forall x, In x l -> exists y, f x = Ok y) -> exists ys, mapM f l = Ok ys.
Proof.
  induction l as [|x r IH]; intros H; simpl; [exists []; reflexivity |].
  destruct (H x (or_introl eq_refl)) as [y Ey].
  destruct IH as [ys Eys]; [intros z Hz; apply H; right; exact Hz |].
  exists (y :: ys). rewrite Ey, Eys. reflexivity.
Qed.

Lemma Forall2_Forall_r {A B : Type} (R : A -> B -> Prop) (P : B -> Prop)
    (l : list A) (l' : list B) :
  Forall2 R l l' -> (forall x y, In x l -> R x y -> P y) -> Forall P l'.
Proof.
  induction 1 as [|x y r r' Hxy _ IH]; intros H; constructor.
  - apply (H x y); [left; reflexivity | exact Hxy].
  - apply IH. intros x' y' Hin. apply H. right. exact Hin.
Qed.


Lemma Forall2_In_r {A B : Type} (R : A -> B -> Prop) (l : list A) (l' : list B) (y : B) :
  Forall2 R l l' -> In y l' -> exists x, In x l /\ R x y.
Proof.
  induction 1 as [|x y' r r' Hxy _ IH]; intros Hin; [contradiction |].
  destruct Hin as [<-|Hin].
  - exists x. split; [left; reflexivity | exact Hxy].
  - destruct (IH Hin) as [x' [Hx' Hr]]. exists x'. split; [right; exact Hx' | exact Hr].
Qed.

(** ** Dictionaries *)

Section DictFacts.
Context {V : Type}.
Implicit Types (d acc kvs : list (string * V)) (k : string) (v : V).

Lemma dict_set_In d k v kv : In kv (dict_set k v d) -> kv = (k, v) \/ In kv d.
Proof.
  induction d as [|[k' v'] r IH]; simpl.
  - intros [<-|[]]. left. reflexivity.
  - destruct (String.eqb k k').
    + intros [<-|H]; [left; reflexivity | right; right; exact H].
    + intros [<-|H]; [right; left; reflexivity |].
      destruct (IH H) as [E|E]; [left; exact E | right; right; exact E].
Qed.

Lemma dict_update_In kvs acc kv :
  In kv (dict_update acc kvs) -> In kv acc \/ In kv kvs.
Proof.
  revert acc. induction kvs as [|[k v] r IH]; intros acc; simpl; [tauto |].
  intros H. destruct (IH _ H) as [H'|H']; [| right; right; exact H'].
  destruct (dict_set_In _ _ _ _ H') as [->|H'']; [right; left; reflexivity | left; exact H''].
Qed.

Lemma dict_get_set_same d k v : dict_get k (dict_set k v d) = Some v.
Proof.
  induction d as [|[k' v'] r IH]; simpl.
  - rewrite String.eqb_refl. reflexivity.
  - destruct (String.eqb k k') eqn:E; simpl.
    + rewrite String.eqb_refl. reflexivity.
    + rewrite E. exact IH.
Qed.

Lemma dict_get_set_other d k k' v :
  k <> k' -> dict_get k' (dict_set k v d) = dict_get k' d.
Proof.
  intros Hne. induction d as [|[k0 v0] r IH]; simpl.
  - destruct (String.eqb k' k) eqn:E; [| reflexivity].
    apply String.eqb_eq in E. congruence.
  - destruct (String.eqb k k0) eqn:E; simpl.
    + apply String.eqb_eq in E. subst k0.
      destruct (String.eqb k' k) eqn:E'; [| reflexivity].
      apply String.eqb_eq in E'. congruence.
    + rewrite IH. reflexivity.
Qed.

Lemma dict_keys_set d k v k' :
  In k' (dict_keys (dict_set k v d)) <-> k' = k \/ In k' (dict_keys d).
Proof.
  unfold dict_keys. induction d as [|[k0 v0] r IH]; simpl.
  - intuition congruence.
  - destruct (String.eqb k k0) eqn:E; simpl.
    + apply String.eqb_eq in E. subst k0. intuition congruence.
    + rewrite IH. intuition congruence.
Qed.

Lemma dict_set_NoDup d k v : NoDup (dict_keys d) -> NoDup (dict_keys (dict_set k v d)).
Proof.
  unfold dict_keys. induction d as [|[k0 v0] r IH]; simpl; intros H.
  - constructor; [intros [] | constructor].
  - inversion H as [|? ? Hn Hr]; subst.
    destruct (String.eqb k k0) eqn:E; simpl.
    + apply String.eqb_eq in E. subst k0. constructor; assumption.
    + constructor; [| apply IH; exact Hr].
      intros Hin. apply (dict_keys_set r k v k0) in Hin.
      destruct Hin as [->|Hin]; [| contradiction].
      rewrite String.eqb_refl in E. discriminate.
Qed.

Lemma dict_update_NoDup kvs acc :
  NoDup (dict_keys acc) -> NoDup (dict_keys (dict_update acc kvs)).
Proof.
  revert acc. induction kvs as [|[k v] r IH]; intros acc H; simpl; [exact H |].
  apply IH. apply dict_set_NoDup. exact H.
Qed.

Lemma dict_update_get_other kvs acc k :
  (forall kv, In kv kvs -> fst kv <> k) ->
  dict_get k (dict_update acc kvs) = dict_get k acc.
Proof.
  revert acc. induction kvs as [|[k0 v0] r IH]; intros acc H; simpl; [reflexivity |].
  rewrite IH by (intros kv Hkv; apply H; right; exact Hkv).
  apply dict_get_set_other. apply (H (k0, v0)). left. reflexivity.
Qed.

Lemma dict_update_app acc kvs kvs' :
  dict_update acc (kvs ++ kvs') = dict_update (dict_update acc kvs) kvs'.
Proof. apply fold_left_app. Qed.

Lemma dict_get_In d k v : dict_get k d = Some v -> In (k, v) d.
Proof.
  induction d as [|[k0 v0] r IH]; simpl; [discriminate |].
  destruct (String.eqb k k0) eqn:E.
  - apply String.eqb_eq in E. subst k0. intros H. injection H as ->. left. reflexivity.
  - intros H. right. apply IH. exact H.
Qed.

Lemma dict_get_unique d k v v' :
  NoDup (dict_keys d) -> dict_get k d = Some v -> In (k, v') d -> v' = v.
Proof.
  unfold dict_keys. induction d as [|[k0 v0] r IH]; simpl; [discriminate |].
  intros Hnd Hget Hin. inversion Hnd as [|? ? Hn Hr]; subst.
  destruct (String.eqb k k0) eqn:E.
  - apply String.eqb_eq in E. subst k0. injection Hget as ->.
    destruct Hin as [Heq|Hin]; [congruence |].
    exfalso. apply Hn. apply (in_map fst) in Hin. exact Hin.
  - destruct Hin as [Heq|Hin].
    + injection Heq as -> _. rewrite String.eqb_refl in E. discriminate.
    + apply IH; assumption.
Qed.

Lemma dict_set_fresh d k v : ~ In k (dict_keys d) -> dict_set k v d = d ++ [(k, v)].
Proof.
  unfold dict_keys. induction d as [|[k0 v0] r IH]; simpl; intros H; [reflexivity |].
  destruct (String.eqb k k0) eqn:E.
  - apply String.eqb_eq in E. subst k0. exfalso. apply H. left. reflexivity.
  - rewrite IH; [reflexivity |]. intros Hin. apply H. right. exact Hin.
Qed.

(** Without two equal keys the dictionary is the sequence of the pairs
    stored into it. *)
Lemma dict_update_distinct kvs acc :
  NoDup (dict_keys acc ++ dict_keys kvs) -> dict_update acc kvs = acc ++ kvs.
Proof.
  unfold dict_keys.
  revert acc. induction kvs as [|[k v] r IH]; intros acc H; simpl.
  - rewrite app_nil_r. reflexivity.
  - assert (Hk : ~ In k (map fst acc)).
    { intros Hin. apply NoDup_remove_2 in H. apply H.
      apply in_or_app. left. exact Hin. }
    rewrite dict_set_fresh by exact Hk.
    rewrite IH.
    + rewrite <- app_assoc. reflexivity.
    + rewrite map_app. simpl. rewrite <- app_assoc. simpl. exact H.
Qed.
End DictFacts.

Lemma annotated_In (items : list (string * FieldInfo pytype)) (name : string)
    (field : FieldInfo pytype) (ann : pytype) :
  In (name, field, ann) (annotated items) <->
  In (name, field) items /\ field_annotation field = Some ann.
Proof.
  induction items as [|[n f] r IH]; simpl; [tauto |].
  destruct (field_annotation f) as [t|] eqn:E; simpl; rewrite IH; split.
  - intros [H|[H1 H2]]; [injection H as -> -> ->; auto | auto].
  - intros [[H|H1] H2]; [injection H as -> ->; left; congruence | auto].
  - intros [H1 H2]. auto.
  - intros [[H|H1] H2]; [injection H as -> ->; congruence | auto].
Qed.

(** ** The recursion descends in depth *)

Lemma depth_arg (a : pytype) (l : list pytype) :
  In a l -> depth a < S (list_max (map depth l)).
Proof.
  intros H. apply Nat.lt_succ_r.
  assert (F : Forall (fun k => k <= list_max (map depth l)) (map depth l))
    by (apply list_max_le; apply Nat.le_refl).
  rewrite Forall_forall in F. apply F. apply in_map. exact H.
Qed.

Lemma depth_field (cls : ModelClass pytype) (name : string) (field : FieldInfo pytype)
    (a : pytype) :
  In (name, field) (model_fields cls) -> field_annotation field = Some a ->
  depth a < depth (TModel cls).
Proof.
  intros H E. simpl. apply Nat.lt_succ_r.
  assert (F : Forall (fun k => k <= list_max (map (field_depth depth) (model_fields cls)))
                (map (field_depth depth) (model_fields cls)))
    by (apply list_max_le; apply Nat.le_refl).
  rewrite Forall_forall in F.
  replace (depth a) with (field_depth depth (name, field))
    by (unfold field_depth; simpl; rewrite E; reflexivity).
  apply F. apply in_map. exact H.
Qed.

Section Properties.

Variable set_iter : list pytype -> list pytype.
Variable subclasscheck_guarded : bool.

(** A set iterates over the distinct elements it was built from. *)
Hypothesis set_iter_spec :
  forall l, NoDup (set_iter l) /\ (forall x, In x (set_iter l) <-> In x l).

Local Notation body := (map_to_type_body set_iter subclasscheck_guarded).
Local Notation derive_fuel := (map_to_type_fuel set_iter subclasscheck_guarded).
Local Notation derive := (map_to_type set_iter subclasscheck_guarded).

Lemma set_iter_In (l : list pytype) (x : pytype) : In x (set_iter l) -> In x l.
Proof. apply (proj2 (set_iter_spec l)). Qed.

Local Notation members := (members set_iter).

Lemma members_In (l : list pytype) (x : pytype) : In x (members l) -> In x l.
Proof.
  unfold members. destruct (existsb is_none (set_iter l)); intros H.
  - apply filter_In in H. apply set_iter_In. tauto.
  - apply set_iter_In. exact H.
Qed.

Lemma properties_of_ext (self self' : derive_fn) (items : list (string * FieldInfo pytype)) :
  (forall name field a, In (name, field) items -> field_annotation field = Some a ->
     forall al d o, self a al d o = self' a al d o) ->
  forall acc, properties_of self items acc = properties_of self' items acc.
Proof.
  induction items as [|[name field] rest IH]; intros H acc; simpl; [reflexivity |].
  destruct (field_annotation field) as [ann|] eqn:E.
  - rewrite (H name field ann (or_introl eq_refl) E).
    destruct (self' ann (Some name) (field_description field) false) as [v| |];
      simpl; try reflexivity.
    apply IH. intros n f t Hin. apply (H n f t). right. exact Hin.
  - apply IH. intros n f t Hin. apply (H n f t). right. exact Hin.
Qed.

Lemma map_class_ext (self self' : derive_fn) (t : pytype) :
  (forall t', depth t' < depth t -> forall a d o, self t' a d o = self' t' a d o) ->
  forall a d o,
    map_class subclasscheck_guarded self t a d o
    = map_class subclasscheck_guarded self' t a d o.
Proof.
  intros H a d o. unfold map_class.
  destruct (primitive_of t); [reflexivity |].
  destruct (issubclass_Enum t) as [[|]| |]; simpl; try reflexivity.
  destruct (issubclass_BaseModel subclasscheck_guarded t) as [[|]| |]; simpl;
    try reflexivity.
  rewrite (properties_of_ext self self'); [reflexivity |].
  intros name field ann Hin E al d' o'. apply H.
  destruct t as [c|n ms|cls|l|k og l]; simpl in Hin; try contradiction.
  eapply depth_field; eassumption.
Qed.

Lemma body_ext (self self' : derive_fn) (t : pytype) :
  (forall t', depth t' < depth t -> forall a d o, self t' a d o = self' t' a d o) ->
  forall a d o, body self t a d o = body self' t a d o.
Proof.
  intros H a d o.
  destruct t as [c|n ms|cls|l|k og l];
    try (apply map_class_ext; exact H).
  - unfold map_to_type_body. fold (members l).
    assert (Hm : forall x, In x (members l) -> depth x < depth (TUnion l))
      by (intros x Hx; apply depth_arg, members_In, Hx).
    destruct (members l) as [|x [|y r]].
    + reflexivity.
    + apply H. apply Hm. left. reflexivity.
    + rewrite (mapM_ext_In _ (fun a0 => self' a0 None None false));
        [reflexivity |].
      intros z Hz. apply H. apply Hm. exact Hz.
  - unfold map_to_type_body.
    destruct og; [| apply map_class_ext; exact H].
    destruct l as [|x [|y r]]; try (apply map_class_ext; exact H).
    rewrite (H x); [reflexivity |]. apply depth_arg. left. reflexivity.
Qed.

Lemma fuel_irrelevant (n : nat) :
  forall m t, depth t < n -> depth t < m ->
  forall a d o, derive_fuel n t a d o = derive_fuel m t a d o.
Proof.
  induction n as [|n IH]; intros m t Hn Hm a d o; [lia |].
  destruct m as [|m]; [lia |]. simpl.
  apply body_ext. intros t' Ht' a' d' o'. apply IH; lia.
Qed.

(** [map_to_type] satisfies the equation of the source function. *)
Lemma map_to_type_unfold (t : pytype) (a d : option string) (o : bool) :
  derive t a d o = body derive t a d o.
Proof.
  unfold map_to_type at 1. simpl.
  apply body_ext. intros t' Ht' a' d' o'.
  unfold map_to_type. apply fuel_irrelevant; lia.
Qed.

Lemma has_none_iter (l : list pytype) :
  existsb is_none (set_iter l) = existsb is_none l.
Proof.
  apply eq_true_iff_eq. rewrite !existsb_exists.
  split; intros [x [Hx E]]; exists x; split; try exact E;
    apply (proj2 (set_iter_spec l)); exact Hx.
Qed.

(** The union branch, lines 66-78. *)
Lemma map_to_type_union (l : list pytype) (a d : option string) (o : bool) :
  derive (TUnion l) a d o =
  match members l with
  | [x] => derive x a d (existsb is_none l)
  | ms =>
      types <- mapM (fun x => derive x None None false) ms ;;
      Ok (UnionField a d (existsb is_none l) types)
  end.
Proof.
  rewrite map_to_type_unfold. unfold map_to_type_body. fold (members l).
  rewrite has_none_iter. destruct (members l) as [|x [|y r]]; reflexivity.
Qed.

(** The structured branch, lines 104-114. *)
Lemma map_to_type_model (cls : ModelClass pytype) (a d : option string) (o : bool) :
  derive (TModel cls) a d o =
  (properties <- properties_of derive (model_fields cls) [] ;;
   Ok (ObjectField a d o properties)).
Proof. rewrite map_to_type_unfold. reflexivity. Qed.

(** ** The recursion never runs out of fuel *)




(** ** Attributes of a derived node *)

Lemma is_none_eq (t : pytype) : is_none t = true <-> t = NoneType.
Proof.
  split; [| intros ->; reflexivity].
  destruct t as [[]| | | |]; simpl; intros H; try discriminate. reflexivity.
Qed.

(** Outside the union branch the [optional] argument only ends up in the
    node that is returned. *)
Lemma map_to_type_optional (t : pytype) (a d : option string) (o o' : bool) :
  is_union t = false ->
  derive t a d o' = omap (set_optional o') (derive t a d o).
Proof.
  intros Hu. destruct t as [c|nm ms|cls|l|k og l]; try discriminate.
  - unfold map_to_type. simpl. unfold map_class. simpl.
    destruct (PRIMITIVES c); reflexivity.
  - reflexivity.
  - rewrite !map_to_type_model.
    destruct (properties_of derive (model_fields cls) []); reflexivity.
  - rewrite !map_to_type_unfold. unfold map_to_type_body, map_class. simpl.
    destruct og as [|on]; [destruct l as [|x [|y r]] |];
      try (destruct k, subclasscheck_guarded; reflexivity).
    destruct (derive x None None false); reflexivity.
Qed.

Lemma map_to_type_plain_attrs (t : pytype) (a d : option string) (o : bool)
    (n : SchemaNode) :
  is_union t = false -> derive t a d o = Ok n ->
  node_alias n = a /\ node_description n = d /\ node_optional n = o.
Proof.
  intros Hu. destruct t as [c|nm ms|cls|l|k og l]; try discriminate.
  - unfold map_to_type. simpl. unfold map_class. simpl.
    destruct (PRIMITIVES c); intros H; [| discriminate].
    injection H as <-. auto.
  - intros H. injection H as <-. auto.
  - rewrite map_to_type_model.
    destruct (properties_of derive (model_fields cls) []); simpl; intros H;
      try discriminate.
    injection H as <-. auto.
  - rewrite map_to_type_unfold. unfold map_to_type_body, map_class. simpl.
    destruct og as [|on]; [destruct l as [|x [|y r]] |];
      try (destruct k, subclasscheck_guarded; simpl; discriminate).
    destruct (derive x None None false); simpl; intros H; try discriminate.
    injection H as <-. auto.
Qed.

Lemma map_to_type_attrs_aux (k : nat) :
  forall t, depth t < k -> forall a d o n,
  derive t a d o = Ok n -> node_alias n = a /\ node_description n = d.
Proof.
  induction k as [|k IH]; intros t Hk a d o n H; [lia |].
  destruct (is_union t) eqn:Hu.
  - destruct t as [| | |l|]; try discriminate.
    rewrite map_to_type_union in H.
    assert (Hm : forall x, In x (members l) -> depth x < k).
    { intros x Hx. pose proof (depth_arg x l (members_In l x Hx)).
      simpl in Hk. lia. }
    destruct (members l) as [|x [|y r]].
    + simpl in H. injection H as <-. auto.
    + eapply IH; [apply Hm; left; reflexivity | exact H].
    + destruct (mapM (fun x0 => derive x0 None None false) (x :: y :: r));
        simpl in H; try discriminate.
      injection H as <-. auto.
  - destruct (map_to_type_plain_attrs t a d o n Hu H) as [H1 [H2 _]]. auto.
Qed.

(** The alias and the description passed to [map_to_type] are those of
    the node it returns. *)
Lemma map_to_type_attrs (t : pytype) (a d : option string) (o : bool) (n : SchemaNode) :
  derive t a d o = Ok n -> node_alias n = a /\ node_description n = d.
Proof. apply (map_to_type_attrs_aux (S (depth t))). lia. Qed.

(** ** The members of a union *)

Lemma members_spec (l : list pytype) :
  NoDup (members l) /\
  (forall x, In x (members l) <-> In x l /\ is_none x = false).
Proof.
  destruct (set_iter_spec l) as [Hnd Hin]. unfold members.
  destruct (existsb is_none (set_iter l)) eqn:E.
  - split; [apply NoDup_filter; exact Hnd |].
    intros x. rewrite filter_In, Hin, negb_true_iff. tauto.
  - split; [exact Hnd |].
    intros x. rewrite Hin. split; [| tauto].
    intros Hx. split; [exact Hx |].
    destruct (is_none x) eqn:Ex; [| reflexivity].
    assert (existsb is_none (set_iter l) = true)
      by (apply existsb_exists; exists x; split; [apply Hin; exact Hx | exact Ex]).
    congruence.
Qed.




Lemma members_distinct (l : list pytype) :
  Permutation (members l) (dedup pytype_eqb (filter (fun x => negb (is_none x)) l)).
Proof.
  destruct (members_spec l) as [Hnd Hin].
  destruct (dedup_spec pytype_eqb pytype_eqb_eq
              (filter (fun x => negb (is_none x)) l)) as [Hnd' Hin'].
  apply NoDup_Permutation; [exact Hnd | exact Hnd' |].
  intros x. rewrite Hin, Hin', filter_In, negb_true_iff. tauto.
Qed.

(** C4.  Take a union with at least two distinct non-null members (and
    maybe a null member), none of them itself a union, each of which
    derives.  Its derivation returns a union node with the alias and the
    description passed in; the node has as many children as the union
    has distinct non-null members; every child has [optional = false] and
    neither alias nor description; the flag [optional] of the union node
    is true exactly when the null marker is a member. *)
Theorem union_node_of_members (args : list pytype) (a d : option string) (o : bool) :
  2 <= length (dedup pytype_eqb (filter (fun x => negb (is_none x)) args)) ->
  (forall x, In x args -> is_union x = false) ->
  (forall x, In x args -> is_none x = false ->
     exists n, derive x None None false = Ok n) ->
  exists (optional : bool) (types : list SchemaNode),
    derive (TUnion args) a d o = Ok (UnionField a d optional types)
    /\ length types
       = length (dedup pytype_eqb (filter (fun x => negb (is_none x)) args))
    /\ Forall bare_member types
    /\ (optional = true <-> In NoneType args).
Proof.
  intros H2 Hflat Hsup.
  pose proof (members_distinct args) as HP.
  apply Permutation_length in HP. rewrite <- HP in *.
  destruct (members_spec args) as [_ Hin].
  assert (Hall : forall x, In x (members args) ->
                 exists n, derive x None None false = Ok n)
    by (intros x Hx; apply Hin in Hx; apply Hsup; tauto).
  destruct (mapM_all_Ok (fun x => derive x None None false) (members args) Hall)
    as [types Ht].
  exists (existsb is_none args), types.
  pose proof (mapM_Ok_inv _ _ _ Ht) as F2.
  split; [| split; [| split]].
  - rewrite map_to_type_union.
    destruct (members args) as [|x [|y r]]; simpl in H2; try lia.
    rewrite Ht. reflexivity.
  - symmetry. eapply Forall2_length. exact F2.
  - apply (Forall2_Forall_r _ _ _ _ F2). intros x n Hx Hn.
    assert (Hu : is_union x = false) by (apply Hflat; apply Hin; exact Hx).
    destruct (map_to_type_plain_attrs x None None false n Hu Hn) as [A [D O]].
    unfold bare_member. auto.
  - rewrite existsb_exists. split.
    + intros [x [Hx E]]. apply is_none_eq in E. subst x. exact Hx.
    + intros Hx. exists NoneType. split; [exact Hx | reflexivity].
Qed.


(** ** Structured types *)

Lemma properties_of_entries (self : derive_fn) (items : list (string * FieldInfo pytype)) :
  forall acc,
  properties_of self items acc =
  (entries <- mapM (derive_entry self) (annotated items) ;;
   Ok (dict_update acc entries)).
Proof.
  induction items as [|[name field] rest IH]; intros acc; simpl; [reflexivity |].
  destruct (field_annotation field) as [ann|]; [| apply IH].
  simpl. unfold derive_entry at 1, derive_field at 1. simpl.
  destruct (self ann (Some name) (field_description field) false) as [v| |];
    simpl; try reflexivity.
  rewrite IH.
  destruct (mapM (derive_entry self) (annotated rest)); reflexivity.
Qed.

Lemma map_to_type_model_entries (cls : ModelClass pytype) (a d : option string)
    (o : bool) :
  derive (TModel cls) a d o =
  (entries <- mapM (derive_entry derive) (annotated (model_fields cls)) ;;
   Ok (ObjectField a d o (dict_of entries))).
Proof.
  rewrite map_to_type_model, properties_of_entries.
  destruct (mapM (derive_entry derive) (annotated (model_fields cls))); reflexivity.
Qed.

Lemma derive_entry_Ok (f : string * FieldInfo pytype * pytype) (kv : string * SchemaNode) :
  derive_entry derive f = Ok kv <->
  fst kv = annotated_key f /\ derive_field derive f = Ok (snd kv).
Proof.
  unfold derive_entry. destruct (derive_field derive f) as [v| |]; simpl.
  - destruct kv as [k v']. simpl. split.
    + intros H. injection H as <- <-. auto.
    + intros [-> H]. injection H as ->. reflexivity.
  - split; [discriminate | intros [_ H]; discriminate].
  - split; [discriminate | intros [_ H]; discriminate].
Qed.

(** Every entry of the properties of a derived object comes from a
    declared, annotated field. *)
Lemma model_entry_origin (cls : ModelClass pytype) (entries : list (string * SchemaNode))
    (key : string) (v : SchemaNode) :
  mapM (derive_entry derive) (annotated (model_fields cls)) = Ok entries ->
  In (key, v) (dict_of entries) ->
  exists name field ann,
    In (name, field) (model_fields cls) /\ field_annotation field = Some ann
    /\ key = field_key (name, field)
    /\ derive ann (Some name) (field_description field) false = Ok v.
Proof.
  intros E Hin. apply mapM_Ok_inv in E.
  apply dict_update_In in Hin. destruct Hin as [[]|Hin].
  destruct (Forall2_In_r _ _ _ _ E Hin) as [[[name field] ann] [Hf Hr]].
  apply derive_entry_Ok in Hr. destruct Hr as [Hk Hv]. simpl in Hk, Hv.
  apply annotated_In in Hf. destruct Hf as [Hf Hann].
  exists name, field, ann. auto.
Qed.

(** ** Unions of a derived tree *)

Lemma members_nonempty (l : list pytype) :
  2 <= length (dedup pytype_eqb l) -> members l <> [].
Proof.
  intros H2 Hnil.
  destruct (dedup_spec pytype_eqb pytype_eqb_eq l) as [Hnd Hin].
  destruct (members_spec l) as [_ Hm].
  assert (Hno : forall x, In x l -> is_none x = true).
  { intros x Hx. destruct (is_none x) eqn:E; [reflexivity |].
    exfalso. assert (In x (members l)) as Hx' by (apply Hm; auto).
    rewrite Hnil in Hx'. exact Hx'. }
  destruct (dedup pytype_eqb l) as [|x [|y r]]; simpl in H2; try lia.
  assert (x = NoneType) by (apply is_none_eq, Hno, Hin; left; reflexivity).
  assert (y = NoneType) by (apply is_none_eq, Hno, Hin; right; left; reflexivity).
  subst. inversion Hnd as [|? ? Hn _]. apply Hn. left. reflexivity.
Qed.

Lemma unions_ok_aux (fuel : nat) :
  forall t, depth t < fuel -> well_formed t = true ->
  forall a d o n, derive t a d o = Ok n -> unions_ok n = true.
Proof.
  induction fuel as [|fuel IH]; intros t Hd Hwf a d o n H; [lia |].
  destruct t as [c|nm ms|cls|l|k og l].
  - unfold map_to_type in H. simpl in H. unfold map_class in H. simpl in H.
    destruct (PRIMITIVES c); [| discriminate]. injection H as <-. reflexivity.
  - injection H as <-. reflexivity.
  - rewrite map_to_type_model_entries in H.
    destruct (mapM (derive_entry derive) (annotated (model_fields cls)))
      as [entries| |] eqn:E; simpl in H; try discriminate.
    injection H as <-. simpl. apply forallb_forall. intros [key v] Hin. simpl.
    destruct (model_entry_origin cls entries key v E Hin)
      as [name [field [ann [Hf [Hann [_ Hv]]]]]].
    apply (IH ann) with (a := Some name) (d := field_description field) (o := false);
      [| | exact Hv].
    + pose proof (depth_field cls name field ann Hf Hann). lia.
    + simpl in Hwf. rewrite forallb_forall in Hwf.
      specialize (Hwf _ Hf). simpl in Hwf. rewrite Hann in Hwf. exact Hwf.
  - cbn [well_formed] in Hwf. apply andb_true_iff in Hwf. destruct Hwf as [H2 Hall].
    apply Nat.leb_le in H2. rewrite forallb_forall in Hall.
    pose proof (members_nonempty l H2) as Hne.
    rewrite map_to_type_union in H.
    assert (Hm : forall x, In x (members l) -> depth x < fuel /\ well_formed x = true).
    { intros x Hx. apply members_In in Hx. split; [| apply Hall; exact Hx].
      pose proof (depth_arg x l Hx). simpl in Hd. lia. }
    destruct (members l) as [|x [|y r]]; [congruence | |].
    + destruct (Hm x (or_introl eq_refl)) as [Hx1 Hx2]. exact (IH x Hx1 Hx2 _ _ _ _ H).
    + destruct (mapM (fun x0 => derive x0 None None false) (x :: y :: r))
        as [types| |] eqn:E; simpl in H; try discriminate.
      injection H as <-. apply mapM_Ok_inv in E. cbn [unions_ok].
      apply andb_true_iff. split.
      * apply Nat.leb_le. rewrite <- (Forall2_length E). simpl. lia.
      * apply forallb_forall. apply Forall_forall.
        apply (Forall2_Forall_r _ _ _ _ E). intros z v Hz Hv.
        destruct (Hm z Hz) as [Hz1 Hz2]. exact (IH z Hz1 Hz2 _ _ _ _ Hv).
  - rewrite map_to_type_unfold in H. unfold map_to_type_body, map_class in H.
    simpl in H.
    destruct og as [|on]; [destruct l as [|x [|y r]] |];
      try (destruct k, subclasscheck_guarded; simpl in H; discriminate).
    destruct (derive x None None false) as [item| |] eqn:E; simpl in H;
      try discriminate.
    injection H as <-. simpl. apply (IH x) with (a := None) (d := None) (o := false).
    + pose proof (depth_arg x [x] (or_introl eq_refl)). simpl in Hd, H. simpl. lia.
    + simpl in Hwf. apply andb_true_iff in Hwf. tauto.
    + exact E.
Qed.

(** C8.  In a tree derived from an annotation all of whose unions have at
    least two distinct members (as every union built by Python has),
    every union node has at least two children: a union left with one
    member after the removal of the null marker is replaced by the
    derivation of that member. *)
Theorem union_nodes_have_two_members (t : pytype) (a d : option string) (o : bool)
    (n : SchemaNode) :
  well_formed t = true -> derive t a d o = Ok n -> unions_ok n = true.
Proof.
  intros Hwf H.
  exact (unions_ok_aux (S (depth t)) t (Nat.lt_succ_diag_r _) Hwf a d o n H).
Qed.

(** ** Keys and aliases of the properties *)

Lemma or_else_declared (attribute : option string) (s b : string) :
  declares attribute s -> or_else attribute b = s.
Proof.
  intros [-> Hs]. simpl. destruct (String.eqb s "") eqn:E; [| reflexivity].
  apply String.eqb_eq in E. contradiction.
Qed.

Lemma or_else_undeclared (attribute : option string) (b : string) :
  undeclared attribute -> or_else attribute b = b.
Proof. intros [->| ->]; reflexivity. Qed.

Lemma entries_keys (l : list (string * FieldInfo pytype * pytype))
    (entries : list (string * SchemaNode)) :
  Forall2 (fun f kv => derive_entry derive f = Ok kv) l entries ->
  dict_keys entries = map annotated_key l.
Proof.
  induction 1 as [|f kv r es Hf _ IH]; simpl; [reflexivity |].
  apply derive_entry_Ok in Hf. destruct Hf as [-> _]. f_equal. exact IH.
Qed.


(** C6, as the code has it.  The properties of the object node derived
    from a structured type are the dictionary filled, in declaration
    order, with one entry per declared field that has an annotation; a
    field without annotation is passed over and takes no part in the
    outcome.  The key of an entry is the alias of the field when the
    field declares a non-empty alias, else the declared name of the
    field.  When no two keys are equal the properties are exactly these
    entries, in declaration order. *)
Theorem object_properties_by_key (cls : ModelClass pytype) (a d : option string)
    (o : bool) :
  derive (TModel cls) a d o =
    (entries <- mapM (derive_entry derive) (annotated (model_fields cls)) ;;
     Ok (ObjectField a d o (dict_of entries)))
  /\ (forall entries,
        mapM (derive_entry derive) (annotated (model_fields cls)) = Ok entries ->
        dict_keys entries = map annotated_key (annotated (model_fields cls))
        /\ (NoDup (map annotated_key (annotated (model_fields cls))) ->
            dict_of entries = entries))
  /\ (forall name field ann,
        In (name, field, ann) (annotated (model_fields cls)) ->
        (forall s, declares (field_alias field) s ->
           annotated_key (name, field, ann) = s)
        /\ (undeclared (field_alias field) ->
            annotated_key (name, field, ann) = name)).
Proof.
  split; [apply map_to_type_model_entries | split].
  - intros entries E. apply mapM_Ok_inv in E.
    pose proof (entries_keys _ _ E) as K. split; [exact K |].
    intros Hnd. unfold dict_of. rewrite dict_update_distinct; [reflexivity |].
    simpl. rewrite K. exact Hnd.
  - intros name field ann _. unfold annotated_key, field_key. simpl. split.
    + intros s Hs. apply or_else_declared. exact Hs.
    + intros Hu. apply or_else_undeclared. exact Hu.
Qed.

(** C9.  Let two declared, annotated fields of a structured type, with
    different names, have the same key, the second being the last field
    with that key, and let every annotated field derive.  Then the
    derivation of the structured type succeeds, and its properties hold
    under that key the node of the second field and nothing else: the
    node of the first field is not among the properties. *)
Theorem colliding_keys_keep_later (cls : ModelClass pytype) (a d : option string)
    (o : bool) (pre mid post : list (string * FieldInfo pytype * pytype))
    (f1 f2 : string * FieldInfo pytype * pytype) :
  annotated (model_fields cls) = pre ++ f1 :: mid ++ f2 :: post ->
  annotated_key f1 = annotated_key f2 ->
  fst (fst f1) <> fst (fst f2) ->
  (forall f, In f post -> annotated_key f <> annotated_key f2) ->
  (forall f, In f (annotated (model_fields cls)) ->
     exists v, derive_field derive f = Ok v) ->
  exists properties n1 n2,
    derive (TModel cls) a d o = Ok (ObjectField a d o properties)
    /\ derive_field derive f1 = Ok n1
    /\ derive_field derive f2 = Ok n2
    /\ dict_get (annotated_key f2) properties = Some n2
    /\ (forall v, In (annotated_key f2, v) properties -> v = n2)
    /\ ~ In (annotated_key f1, n1) properties.
Proof.
  intros Hsplit Hkey Hname Hpost Hall.
  assert (Hall' : forall f, In f (annotated (model_fields cls)) ->
                  exists kv, derive_entry derive f = Ok kv).
  { intros f Hf. destruct (Hall f Hf) as [v Hv]. exists (annotated_key f, v).
    apply derive_entry_Ok. auto. }
  destruct (mapM_all_Ok _ _ Hall') as [entries E].
  destruct (Hall f1) as [n1 Hn1];
    [rewrite Hsplit; apply in_or_app; right; left; reflexivity |].
  pose proof (mapM_Ok_inv _ _ _ E) as F2. rewrite Hsplit in F2.
  replace (pre ++ f1 :: mid ++ f2 :: post) with ((pre ++ f1 :: mid) ++ f2 :: post) in F2
    by (rewrite <- app_assoc; reflexivity).
  apply Forall2_app_inv_l in F2.
  destruct F2 as [e1 [e2 [F1 [F2 ->]]]].
  inversion F2 as [|? kv2 ? epost Hkv2 Fpost]; subst.
  apply derive_entry_Ok in Hkv2. destruct kv2 as [k2 n2]. destruct Hkv2 as [Hk2 Hn2].
  simpl in Hk2, Hn2. subst k2.
  set (k := annotated_key f2) in *.
  assert (Hget : dict_get k (dict_of (e1 ++ (k, n2) :: epost)) = Some n2).
  { unfold dict_of. rewrite dict_update_app. simpl.
    rewrite dict_update_get_other; [apply dict_get_set_same |].
    intros kv Hkv. destruct (Forall2_In_r _ _ _ _ Fpost Hkv) as [f [Hf Hr]].
    apply derive_entry_Ok in Hr. destruct Hr as [-> _]. apply Hpost. exact Hf. }
  assert (Hnd : NoDup (dict_keys (dict_of (e1 ++ (k, n2) :: epost))))
    by (apply dict_update_NoDup; constructor).
  exists (dict_of (e1 ++ (k, n2) :: epost)), n1, n2.
  split; [| split; [| split; [| split; [| split]]]]; try assumption.
  - rewrite map_to_type_model_entries, E. reflexivity.
  - intros v Hv. eapply dict_get_unique; eassumption.
  - rewrite Hkey. fold k. intros Hin.
    assert (n1 = n2) by (eapply dict_get_unique; eassumption). subst n2.
    destruct (map_to_type_attrs _ _ _ _ _ Hn1) as [A1 _].
    destruct (map_to_type_attrs _ _ _ _ _ Hn2) as [A2 _].
    apply Hname. congruence.
Qed.

(** ** Enumerations *)

Lemma name_differs_spec (name : string) (value : pyvalue) :
  name_differs name value = true <-> VStr name <> value.
Proof.
  destruct value as [s|z]; simpl.
  - rewrite negb_true_iff. split.
    + intros E H. injection H as ->. rewrite String.eqb_refl in E. discriminate.
    + intros H. destruct (String.eqb name s) eqn:E; [| reflexivity].
      apply String.eqb_eq in E. subst. contradiction.
  - split; [discriminate | reflexivity].
Qed.

(** C7.  The derivation of an enumeration returns an enum node named as
    the enumeration, with one variant per member in declaration order;
    the value of a variant is the value of the member, and its alias is
    the name of the member when that name differs from the value and is
    absent when the value is the name. *)
Theorem enum_node_of_members (name : string) (enum_members : list (string * pyvalue))
    (a d : option string) (o : bool) :
  exists variants,
    derive (TEnum name enum_members) a d o = Ok (EnumField a d o name variants)
    /\ Forall2 (fun member variant =>
                  variant_value variant = snd member
                  /\ (VStr (fst member) <> snd member ->
                      variant_alias variant = Some (fst member))
                  /\ (VStr (fst member) = snd member ->
                      variant_alias variant = None))
         enum_members variants.
Proof.
  exists (map variant_of enum_members). split; [reflexivity |].
  induction enum_members as [|[nm v] r IH]; simpl; constructor; [| exact IH].
  simpl. destruct (name_differs nm v) eqn:E; simpl.
  - repeat split; try reflexivity. intros H.
    apply name_differs_spec in E. contradiction.
  - repeat split; try reflexivity. intros H. apply name_differs_spec in H. congruence.
Qed.

(** ** Unsupported annotations *)

(** X17.  A plain class outside the catalog ([NoneType], [bytes], bare
    [list], ...) is refused by name. *)
Lemma unsupported_class_is_named (c : pyclass) (a d : option string) (o : bool) :
  PRIMITIVES c = None ->
  derive (TClass c) a d o = Raise (NotImplementedError (TClass c)).
Proof.
  intros H. unfold map_to_type. simpl. unfold map_class. simpl. rewrite H. reflexivity.
Qed.

(** X18.  A parametrised generic that is not a list of one element type
    never yields a node. *)
Lemma unsupported_generic_no_node (k : alias_kind) (og : generic_origin)
    (l : list pytype) (a d : option string) (o : bool) (n : SchemaNode) :
  (og = origin_list -> length l <> 1) -> derive (TGeneric k og l) a d o <> Ok n.
Proof.
  intros H. rewrite map_to_type_unfold. unfold map_to_type_body, map_class. simpl.
  destruct og as [|on]; [destruct l as [|x [|y r]] |];
    try (destruct k, subclasscheck_guarded; simpl; discriminate).
  exfalso. apply H; reflexivity.
Qed.

(** X19.  With a guarded subclass check, a [types.GenericAlias] of the
    wrong shape is refused by name. *)
Lemma unsupported_builtin_alias_is_named (og : generic_origin) (l : list pytype)
    (a d : option string) (o : bool) :
  subclasscheck_guarded = true -> (og = origin_list -> length l <> 1) ->
  derive (TGeneric BuiltinAlias og l) a d o
  = Raise (NotImplementedError (TGeneric BuiltinAlias og l)).
Proof.
  intros Hg H. rewrite map_to_type_unfold. unfold map_to_type_body, map_class. simpl.
  rewrite Hg.
  destruct og as [|on]; [destruct l as [|x [|y r]] |]; try reflexivity.
  exfalso. apply H; reflexivity.
Qed.

(** C2, where the code departs from it.  [typing.List] without a
    parameter is a sequence type with zero element types, and
    [typing.Dict[...]] and the like match no recognised shape.  For them
    [issubclass(annotation, Enum)] raises before the final [raise] is
    reached: the derivation fails with the [TypeError] of [issubclass],
    whose message does not name the annotation. *)
Theorem typing_alias_raises_TypeError (a d : option string) (o : bool) :
  map_to_type set_iter subclasscheck_guarded (TGeneric TypingAlias origin_list []) a d o
  = Raise (TypeError "issubclass() arg 1 must be a class")
  /\ (forall name args,
        map_to_type set_iter subclasscheck_guarded
          (TGeneric TypingAlias (origin_other name) args) a d o
        = Raise (TypeError "issubclass() arg 1 must be a class")).
Proof. split; reflexivity. Qed.

(** ** Tables *)

Lemma table_of_Ok (doc : ModelClass pytype) (t : Table) :
  table_of set_iter subclasscheck_guarded doc = Ok t ->
  table_name t = or_else (cls_collection doc) (or_else (cls_table doc) (cls_name doc))
  /\ table_alias t = cls_name doc
  /\ derive (TModel doc) None None false
     = Ok (ObjectField None None false (table_fields t)).
Proof.
  unfold table_of. rewrite map_to_type_model.
  destruct (properties_of derive (model_fields doc) []) as [ps| |]; simpl;
    intros H; try discriminate.
  injection H as <-. simpl. auto.
Qed.

Lemma table_of_succeeds (doc : ModelClass pytype) (n : SchemaNode) :
  derive (TModel doc) None None false = Ok n ->
  exists t, table_of set_iter subclasscheck_guarded doc = Ok t.
Proof.
  unfold table_of. rewrite map_to_type_model.
  destruct (properties_of derive (model_fields doc) []) as [ps| |]; simpl;
    intros H; try discriminate.
  eexists. reflexivity.
Qed.

(** C5, as the code has it.  When every document of the input derives,
    assembling returns one table per document, in the order of the
    input.  The name of a table is the collection name of its document
    when a non-empty one is declared; else the table name when a
    non-empty one is declared; else the name of the document type.  The
    alias of the table is the name of the document type, and its fields
    are the properties of the object node derived from the document. *)
Theorem one_table_per_document (documents : list (ModelClass pytype)) :
  (forall doc, In doc documents ->
     exists n, derive (TModel doc) None None false = Ok n) ->
  exists tables,
    map_documents_to_tables set_iter subclasscheck_guarded documents = Ok tables
    /\ Forall2
         (fun doc t =>
            (forall s, declares (cls_collection doc) s -> table_name t = s)
            /\ (undeclared (cls_collection doc) ->
                forall s, declares (cls_table doc) s -> table_name t = s)
            /\ (undeclared (cls_collection doc) -> undeclared (cls_table doc) ->
                table_name t = cls_name doc)
            /\ table_alias t = cls_name doc
            /\ derive (TModel doc) None None false
               = Ok (ObjectField None None false (table_fields t)))
         documents tables.
Proof.
  intros Hall.
  assert (Hall' : forall doc, In doc documents ->
                  exists t, table_of set_iter subclasscheck_guarded doc = Ok t).
  { intros doc Hd. destruct (Hall doc Hd) as [n Hn]. eapply table_of_succeeds, Hn. }
  destruct (mapM_all_Ok _ _ Hall') as [tables E].
  exists tables. split; [exact E |].
  apply mapM_Ok_inv in E. eapply Forall2_impl; [| exact E].
  intros doc t Ht. simpl in Ht. apply table_of_Ok in Ht.
  destruct Ht as [Hn [Ha Hf]]. rewrite Hn.
  repeat split; try assumption.
  - intros s Hs. apply or_else_declared. exact Hs.
  - intros Hu s Hs. rewrite or_else_undeclared by exact Hu.
    apply or_else_declared. exact Hs.
  - intros Hu Hu'. rewrite !or_else_undeclared by assumption. reflexivity.
Qed.
(** * Further properties of the introspector *)

(** ** Comprehensions that fail *)

Lemma mapM_app {A B : Type} (f : A -> outcome B) (l1 l2 : list A) :
  mapM f (l1 ++ l2) = (ys1 <- mapM f l1 ;; ys2 <- mapM f l2 ;; Ok (ys1 ++ ys2)).
Proof.
  induction l1 as [|x r IH]; simpl.
  - destruct (mapM f l2); reflexivity.
  - destruct (f x) as [y| |]; simpl; try reflexivity.
    rewrite IH. destruct (mapM f r) as [ys| |]; simpl; try reflexivity.
    destruct (mapM f l2); reflexivity.
Qed.

Lemma mapM_first_Raise {A B : Type} (f : A -> outcome B) (pre post : list A) (x : A)
    (e : exn) :
  (forall z, In z pre -> exists y, f z = Ok y) -> f x = Raise e ->
  mapM f (pre ++ x :: post) = Raise e.
Proof.
  intros Hpre Hx. rewrite mapM_app.
  destruct (mapM_all_Ok f pre Hpre) as [ys ->]. simpl. rewrite Hx. reflexivity.
Qed.

Lemma mapM_Raise_inv {A B : Type} (f : A -> outcome B) (l : list A) (e : exn) :
  mapM f l = Raise e -> exists x, In x l /\ f x = Raise e.
Proof.
  induction l as [|x r IH]; simpl; [discriminate |].
  destruct (f x) as [y| |] eqn:E; simpl; try discriminate.
  - destruct (mapM f r) as [ys| |]; simpl; try discriminate.
    intros H. injection H as <-. destruct (IH eq_refl) as [z [Hz Ez]].
    exists z. split; [right; exact Hz | exact Ez].
  - intros H. injection H as <-. exists x. split; [left; reflexivity | exact E].
Qed.

(** ** Alias, description and the optional flag *)

Lemma relabel_aux (fuel : nat) :
  forall t, depth t < fuel -> forall a d o,
  derive t a d o = omap (relabel a d) (derive t None None o).
Proof.
  induction fuel as [|fuel IH]; intros t Hd a d o; [lia |].
  destruct t as [c|nm ms|cls|l|k og l].
  - unfold map_to_type. simpl. unfold map_class. simpl.
    destruct (PRIMITIVES c); reflexivity.
  - reflexivity.
  - rewrite !map_to_type_model.
    destruct (properties_of derive (model_fields cls) []); reflexivity.
  - rewrite !map_to_type_union.
    assert (Hm : forall x, In x (members l) -> depth x < fuel).
    { intros x Hx. pose proof (depth_arg x l (members_In l x Hx)). simpl in Hd. lia. }
    destruct (members l) as [|x [|y r]].
    + reflexivity.
    + apply IH. apply Hm. left. reflexivity.
    + destruct (mapM (fun x0 => derive x0 None None false) (x :: y :: r)); reflexivity.
  - rewrite !map_to_type_unfold. unfold map_to_type_body, map_class. simpl.
    destruct og as [|on]; [destruct l as [|x [|y r]] |];
      try (destruct k, subclasscheck_guarded; reflexivity).
    destruct (derive x None None false); reflexivity.
Qed.

(** X1.  The alias and the description passed to [map_to_type] only label
    the node that is returned: the call gives what the call without alias
    and description gives, relabelled, and fails when that one fails. *)
Theorem alias_and_description_label_the_root (t : pytype) (a d : option string)
    (o : bool) :
  derive t a d o = omap (relabel a d) (derive t None None o).
Proof. apply (relabel_aux (S (depth t))). lia. Qed.

Lemma union_ignores_optional (l : list pytype) (a d : option string) (o o' : bool) :
  derive (TUnion l) a d o = derive (TUnion l) a d o'.
Proof. rewrite !map_to_type_union. reflexivity. Qed.

Lemma raise_transfers (t : pytype) (a d a' d' : option string) (o o' : bool) (e : exn) :
  derive t a d o = Raise e -> derive t a' d' o' = Raise e.
Proof.
  intros H.
  rewrite (relabel_aux (S (depth t)) t (Nat.lt_succ_diag_r _)) in H.
  rewrite (relabel_aux (S (depth t)) t (Nat.lt_succ_diag_r _) a' d').
  assert (H0 : derive t None None o = Raise e)
    by (destruct (derive t None None o); simpl in H; try discriminate; exact H).
  assert (H1 : derive t None None o' = Raise e).
  { destruct (is_union t) eqn:Hu.
    - destruct t; try discriminate. rewrite (union_ignores_optional _ _ _ o' o). exact H0.
    - rewrite (map_to_type_optional t None None o o' Hu), H0. reflexivity. }
  rewrite H1. reflexivity.
Qed.

(** X2.  Whether [map_to_type] raises, and which exception, depends on the
    annotation alone: not on the alias, the description or the optional
    flag passed in. *)
Theorem failure_depends_on_the_annotation_only (t : pytype) (a d a' d' : option string)
    (o o' : bool) (e : exn) :
  derive t a d o = Raise e <-> derive t a' d' o' = Raise e.
Proof. split; apply raise_transfers. Qed.

Lemma flat_union_members (l : list pytype) (x : pytype) :
  flat_union (TUnion l) = true -> In x (members l) -> is_union x = false.
Proof.
  simpl. rewrite forallb_forall. intros H Hx.
  apply negb_true_iff. apply H. apply members_In. exact Hx.
Qed.

Lemma optional_flag_aux (t : pytype) (a d : option string) (o : bool) (n : SchemaNode) :
  flat_union t = true -> derive t a d o = Ok n ->
  node_optional n = if is_union t then admits_none t else o.
Proof.
  intros Hflat H. destruct (is_union t) eqn:Hu.
  - destruct t as [| | |l|]; try discriminate. simpl.
    rewrite map_to_type_union in H.
    pose proof (flat_union_members l) as Hm.
    destruct (members l) as [|x [|y r]].
    + simpl in H. injection H as <-. reflexivity.
    + assert (Hx : is_union x = false) by (apply Hm; [exact Hflat | left; reflexivity]).
      destruct (map_to_type_plain_attrs x a d _ n Hx H) as [_ [_ O]]. exact O.
    + destruct (mapM (fun x0 => derive x0 None None false) (x :: y :: r));
        simpl in H; try discriminate.
      injection H as <-. reflexivity.
  - destruct (map_to_type_plain_attrs t a d o n Hu H) as [_ [_ O]]. exact O.
Qed.

(** X3.  The optional flag of the node returned for an annotation whose
    union, if it is one, is flat: for a union it is true exactly when
    [NoneType] is a member, whatever the caller passed; for every other
    annotation it is the flag the caller passed. *)
Theorem optional_flag_of_the_node (t : pytype) (a d : option string) (o : bool)
    (n : SchemaNode) :
  flat_union t = true -> derive t a d o = Ok n ->
  node_optional n = if is_union t then admits_none t else o.
Proof. apply optional_flag_aux. Qed.

(** X4.  The properties of an object node derived from a structured type
    whose field annotations are flat: an entry is optional exactly when
    the annotation of the field it comes from is a union with the member
    [NoneType]. *)
Theorem property_is_optional_iff_annotation_admits_none (cls : ModelClass pytype)
    (a d : option string) (o : bool) (properties : list (string * SchemaNode)) :
  (forall name field ann, In (name, field) (model_fields cls) ->
     field_annotation field = Some ann -> flat_union ann = true) ->
  derive (TModel cls) a d o = Ok (ObjectField a d o properties) ->
  forall key v, In (key, v) properties ->
  exists name field ann,
    In (name, field) (model_fields cls)
    /\ field_annotation field = Some ann
    /\ key = or_else (field_alias field) name
    /\ node_optional v = admits_none ann.
Proof.
  intros Hflat H key v Hin. rewrite map_to_type_model_entries in H.
  destruct (mapM (derive_entry derive) (annotated (model_fields cls)))
    as [entries| |] eqn:E; simpl in H; try discriminate.
  injection H as <-.
  destruct (model_entry_origin cls entries key v E Hin)
    as [name [field [ann [Hf [Hann [Hk Hv]]]]]].
  exists name, field, ann. repeat split; try assumption.
  rewrite (optional_flag_aux _ _ _ _ _ (Hflat _ _ _ Hf Hann) Hv).
  destruct ann; reflexivity.
Qed.

(** ** Shapes *)

(** X5.  Outside the union branch the class of the node follows the shape
    of the annotation: a catalog class gives a primitive node, an
    enumeration an enum node, a structured type an object node, a list of
    one element type an array node; nothing else yields a node. *)
Theorem node_class_follows_shape (t : pytype) (a d : option string) (o : bool)
    (n : SchemaNode) :
  is_union t = false -> derive t a d o = Ok n -> shape_matches t n = true.
Proof.
  intros Hu. destruct t as [c|nm ms|cls|l|k og l]; try discriminate.
  - unfold map_to_type. simpl. unfold map_class. simpl.
    destruct (PRIMITIVES c); intros H; [| discriminate]. injection H as <-. reflexivity.
  - intros H. injection H as <-. reflexivity.
  - rewrite map_to_type_model.
    destruct (properties_of derive (model_fields cls) []); simpl; intros H;
      try discriminate.
    injection H as <-. reflexivity.
  - rewrite map_to_type_unfold. unfold map_to_type_body, map_class. simpl.
    destruct og as [|on]; [destruct l as [|x [|y r]] |];
      try (destruct k, subclasscheck_guarded; simpl; discriminate).
    destruct (derive x None None false); simpl; intros H; try discriminate.
    injection H as <-. reflexivity.
Qed.

(** X6.  A list of one element type, written [list[T]] or
    [typing.List[T]], derives to an array node whose item is the
    derivation of [T] with no alias, no description and [optional = False];
    alias, description and optional flag go to the array node; a failure
    of [T] is the failure of the list. *)
Theorem list_item_is_the_standalone_derivation (k : alias_kind) (T : pytype)
    (a d : option string) (o : bool) :
  derive (TGeneric k origin_list [T]) a d o
  = omap (ArrayField a d o) (derive T None None false).
Proof. rewrite map_to_type_unfold. reflexivity. Qed.

(** X7.  The catalog is one to one: every primitive kind is the kind of
    the node of some class, and two classes whose nodes have the same kind
    are the same class. *)
Theorem catalog_is_one_to_one (a d : option string) (o : bool) :
  (forall p : PrimitiveType, exists c : pyclass,
     map_to_type set_iter subclasscheck_guarded (TClass c) a d o
     = Ok (PrimitiveField a d o p))
  /\ (forall (c c' : pyclass) (p : PrimitiveType),
        map_to_type set_iter subclasscheck_guarded (TClass c) a d o
        = Ok (PrimitiveField a d o p) ->
        map_to_type set_iter subclasscheck_guarded (TClass c') a d o
        = Ok (PrimitiveField a d o p) -> c = c').
Proof.
  split.
  - intros p.
    destruct p;
      [exists py_bool | exists py_int | exists py_float | exists py_str
      | exists py_datetime | exists py_date | exists py_time | exists py_ObjectId
      | exists py_UUID]; reflexivity.
  - intros c c' p. unfold map_to_type. simpl. unfold map_class. simpl.
    destruct c, c'; simpl; intros H H'; try discriminate; try reflexivity;
      injection H as <-; discriminate.
Qed.

(** ** Failures *)

(** X8.  A structured type fails with the exception of its first field,
    in declaration order, whose derivation fails: no object node is
    returned, and the fields declared after it play no part. *)
Theorem object_fails_with_its_first_failing_field (cls : ModelClass pytype)
    (a d : option string) (o : bool)
    (pre post : list (string * FieldInfo pytype * pytype))
    (f : string * FieldInfo pytype * pytype) (e : exn) :
  annotated (model_fields cls) = pre ++ f :: post ->
  (forall g, In g pre -> exists v, derive_field derive g = Ok v) ->
  derive_field derive f = Raise e ->
  derive (TModel cls) a d o = Raise e.
Proof.
  intros Hsplit Hpre Hf. rewrite map_to_type_model_entries, Hsplit.
  rewrite (mapM_first_Raise (derive_entry derive) pre post f e); [reflexivity | |].
  - intros g Hg. destruct (Hpre g Hg) as [v Hv]. exists (annotated_key g, v).
    apply derive_entry_Ok. auto.
  - unfold derive_entry. rewrite Hf. reflexivity.
Qed.

(** X9.  When a union with at least two distinct non-null members returns
    a node, it is a union node whose children are, in the order in which
    the set of members is iterated, the derivations of the non-null
    members with no alias, no description and [optional = False]: every
    such member derives, and every child comes from one of them. *)
Theorem union_node_children_are_the_members (args : list pytype) (a d : option string)
    (o : bool) (n : SchemaNode) :
  2 <= length (dedup pytype_eqb (filter (fun x => negb (is_none x)) args)) ->
  derive (TUnion args) a d o = Ok n ->
  exists types,
    n = UnionField a d (existsb is_none args) types
    /\ Forall2 (fun x v => derive x None None false = Ok v) (members args) types
    /\ (forall x, In x args -> is_none x = false ->
          exists v, In v types /\ derive x None None false = Ok v).
Proof.
  intros H2 H.
  pose proof (Permutation_length (members_distinct args)) as HP. rewrite <- HP in H2.
  destruct (members_spec args) as [_ Hin].
  rewrite map_to_type_union in H.
  destruct (members args) as [|x [|y r]] eqn:Em; simpl in H2; try lia.
  destruct (mapM (fun x0 => derive x0 None None false) (x :: y :: r))
    as [types| |] eqn:E; simpl in H; try discriminate.
  injection H as <-. exists types. apply mapM_Ok_inv in E.
  split; [reflexivity | split; [exact E |]].
  intros z Hz Hnone.
  assert (Hz' : In z (x :: y :: r)) by (apply Hin; auto).
  clear - E Hz'. induction E as [|x0 v0 r0 vs Hx _ IH]; [contradiction |].
  destruct Hz' as [<-|Hz'].
  - exists v0. split; [left; reflexivity | exact Hx].
  - destruct (IH Hz') as [v [Hv Ev]]. exists v. split; [right; exact Hv | exact Ev].
Qed.

Lemma pytype_eqb_refl (t : pytype) : pytype_eqb t t = true.
Proof. apply pytype_eqb_eq. reflexivity. Qed.

Lemma occurs_in_self (t : pytype) : occurs_in t t = true.
Proof. destruct t; cbn [occurs_in]; rewrite pytype_eqb_refl; reflexivity. Qed.
Lemma occurs_in_arg (u x : pytype) (l : list pytype) :
  In x l -> occurs_in u x = true ->
  occurs_in u (TUnion l) = true
  /\ forall k og, occurs_in u (TGeneric k og l) = true.
Proof.
  intros Hx Hu.
  assert (E : existsb (occurs_in u) l = true)
    by (apply existsb_exists; exists x; auto).
  split; [| intros k og]; cbn [occurs_in]; rewrite E; apply orb_true_r.
Qed.

Lemma occurs_in_field (u ann : pytype) (cls : ModelClass pytype) (name : string)
    (field : FieldInfo pytype) :
  In (name, field) (model_fields cls) -> field_annotation field = Some ann ->
  occurs_in u ann = true -> occurs_in u (TModel cls) = true.
Proof.
  intros Hf Hann Hu. cbn [occurs_in]. apply orb_true_iff. right.
  apply existsb_exists. exists (name, field). split; [exact Hf |].
  simpl. rewrite Hann. exact Hu.
Qed.

Lemma raised_exception_aux (fuel : nat) :
  forall t, depth t < fuel -> forall a d o e,
  derive t a d o = Raise e ->
  e = not_a_class
  \/ exists u, e = NotImplementedError u /\ occurs_in u t = true /\ refused u = true.
Proof.
  induction fuel as [|fuel IH]; intros t Hd a d o e H; [lia |].
  destruct t as [c|nm ms|cls|l|k og l].
  - unfold map_to_type in H. simpl in H. unfold map_class in H. simpl in H.
    destruct (PRIMITIVES c) eqn:Ec; [discriminate |]. injection H as <-.
    right. exists (TClass c). split; [reflexivity |].
    split; [apply occurs_in_self | simpl; rewrite Ec; reflexivity].
  - discriminate.
  - rewrite map_to_type_model_entries in H.
    destruct (mapM (derive_entry derive) (annotated (model_fields cls)))
      as [entries|e0|] eqn:E; simpl in H; try discriminate.
    injection H as <-. apply mapM_Raise_inv in E.
    destruct E as [[[name field] ann] [Hin Hr]].
    apply annotated_In in Hin. destruct Hin as [Hf Hann].
    unfold derive_entry, derive_field in Hr. simpl in Hr.
    destruct (derive ann (Some name) (field_description field) false) as [v|e1|] eqn:Ev;
      simpl in Hr; try discriminate.
    injection Hr as <-.
    assert (Hda : depth ann < fuel)
      by (pose proof (depth_field cls name field ann Hf Hann); lia).
    destruct (IH ann Hda _ _ _ _ Ev) as [->|[u [-> [Hu Hr]]]]; [left; reflexivity |].
    right. exists u. split; [reflexivity |]. split; [| exact Hr].
    eapply occurs_in_field; eassumption.
  - rewrite map_to_type_union in H.
    assert (Hm : forall x, In x (members l) -> In x l /\ depth x < fuel).
    { intros x Hx. apply members_In in Hx. split; [exact Hx |].
      pose proof (depth_arg x l Hx). simpl in Hd. lia. }
    assert (Hlift : forall x e0 a0 d0 o0, In x (members l) ->
              derive x a0 d0 o0 = Raise e0 ->
              e0 = not_a_class
              \/ exists u, e0 = NotImplementedError u
                           /\ occurs_in u (TUnion l) = true /\ refused u = true).
    { intros x e0 a0 d0 o0 Hx Hr. destruct (Hm x Hx) as [Hxl Hxd].
      destruct (IH x Hxd _ _ _ _ Hr) as [->|[u [-> [Hu Hrf]]]]; [left; reflexivity |].
      right. exists u. split; [reflexivity |]. split; [| exact Hrf].
      apply (occurs_in_arg u x l Hxl Hu). }
    destruct (members l) as [|x [|y r]].
    + discriminate.
    + eapply Hlift; [left; reflexivity | exact H].
    + destruct (mapM (fun x0 => derive x0 None None false) (x :: y :: r))
        as [ts|e0|] eqn:E; simpl in H; try discriminate.
      injection H as <-. apply mapM_Raise_inv in E. destruct E as [z [Hz Hr]].
      eapply Hlift; eassumption.
  - rewrite map_to_type_unfold in H. unfold map_to_type_body, map_class in H.
    simpl in H.
    destruct og as [|on]; [destruct l as [|x [|y r]] |].
    2: { destruct (derive x None None false) as [v|e1|] eqn:Ev; simpl in H;
           try discriminate.
         injection H as <-.
         assert (Hdx : depth x < fuel)
           by (pose proof (depth_arg x [x] (or_introl eq_refl)); simpl in Hd; simpl in H; lia).
         destruct (IH x Hdx _ _ _ _ Ev) as [->|[u [-> [Hu Hr]]]]; [left; reflexivity |].
         right. exists u. split; [reflexivity |]. split; [| exact Hr].
         apply (occurs_in_arg u x [x] (or_introl eq_refl) Hu). }
    all: destruct k; simpl in H; [| injection H as <-; left; reflexivity];
      destruct subclasscheck_guarded; simpl in H; injection H as <-;
      [| left; reflexivity];
      right; eexists; split; [reflexivity |];
      split; [apply occurs_in_self | reflexivity].
Qed.

(** X10.  An exception raised by [map_to_type] is the [TypeError] of
    [issubclass], or a [NotImplementedError] that names an annotation
    occurring in the one passed in (the annotation itself, a member, a
    parameter or the annotation of a field, at any depth), which is a plain
    class outside the catalog or a [types.GenericAlias] that is not a list
    of one element type.  No other exception is raised. *)
Theorem raised_exception_names_an_inner_annotation (t : pytype) (a d : option string)
    (o : bool) (e : exn) :
  derive t a d o = Raise e ->
  e = TypeError "issubclass() arg 1 must be a class"
  \/ exists u, e = NotImplementedError u /\ occurs_in u t = true /\ refused u = true.
Proof.
  intros H.
  exact (raised_exception_aux (S (depth t)) t (Nat.lt_succ_diag_r _) a d o e H).
Qed.

(** ** Keys of the properties *)

Lemma distinct_NoDup (keys : list string) : NoDup keys -> distinct keys = true.
Proof.
  induction 1 as [|k r Hk _ IH]; simpl; [reflexivity |].
  rewrite IH, andb_true_r. apply negb_true_iff.
  destruct (existsb (String.eqb k) r) eqn:E; [| reflexivity].
  apply existsb_exists in E. destruct E as [k' [Hin Ek]].
  apply String.eqb_eq in Ek. subst k'. contradiction.
Qed.

Lemma keys_distinct_aux (fuel : nat) :
  forall t, depth t < fuel -> forall a d o n,
  derive t a d o = Ok n -> keys_distinct n = true.
Proof.
  induction fuel as [|fuel IH]; intros t Hd a d o n H; [lia |].
  destruct t as [c|nm ms|cls|l|k og l].
  - unfold map_to_type in H. simpl in H. unfold map_class in H. simpl in H.
    destruct (PRIMITIVES c); [| discriminate]. injection H as <-. reflexivity.
  - injection H as <-. reflexivity.
  - rewrite map_to_type_model_entries in H.
    destruct (mapM (derive_entry derive) (annotated (model_fields cls)))
      as [entries| |] eqn:E; simpl in H; try discriminate.
    injection H as <-. cbn [keys_distinct]. apply andb_true_iff. split.
    + apply distinct_NoDup. apply (dict_update_NoDup entries []). constructor.
    + apply forallb_forall. intros [key v] Hin. simpl.
      destruct (model_entry_origin cls entries key v E Hin)
        as [name [field [ann [Hf [Hann [_ Hv]]]]]].
      apply (IH ann) with (a := Some name) (d := field_description field) (o := false);
        [| exact Hv].
      pose proof (depth_field cls name field ann Hf Hann). lia.
  - rewrite map_to_type_union in H.
    assert (Hm : forall x, In x (members l) -> depth x < fuel).
    { intros x Hx. pose proof (depth_arg x l (members_In l x Hx)). simpl in Hd. lia. }
    destruct (members l) as [|x [|y r]].
    + simpl in H. injection H as <-. reflexivity.
    + exact (IH x (Hm x (or_introl eq_refl)) _ _ _ _ H).
    + destruct (mapM (fun x0 => derive x0 None None false) (x :: y :: r))
        as [types| |] eqn:E; simpl in H; try discriminate.
      injection H as <-. apply mapM_Ok_inv in E. cbn [keys_distinct].
      apply forallb_forall. apply Forall_forall.
      apply (Forall2_Forall_r _ _ _ _ E). intros z v Hz Hv.
      exact (IH z (Hm z Hz) _ _ _ _ Hv).
  - rewrite map_to_type_unfold in H. unfold map_to_type_body, map_class in H.
    simpl in H.
    destruct og as [|on]; [destruct l as [|x [|y r]] |];
      try (destruct k, subclasscheck_guarded; simpl in H; discriminate).
    destruct (derive x None None false) as [item| |] eqn:E; simpl in H;
      try discriminate.
    injection H as <-. simpl. apply (IH x) with (a := None) (d := None) (o := false).
    + pose proof (depth_arg x [x] (or_introl eq_refl)). simpl in Hd, H. simpl. lia.
    + exact E.
Qed.

(** X11.  In a derived tree no object node has two properties with the
    same key, at any depth: a later field with the key of an earlier one
    takes its place. *)
Theorem object_keys_are_distinct (t : pytype) (a d : option string) (o : bool)
    (n : SchemaNode) :
  derive t a d o = Ok n -> keys_distinct n = true.
Proof.
  intros H. exact (keys_distinct_aux (S (depth t)) t (Nat.lt_succ_diag_r _) a d o n H).
Qed.

Lemma or_else_not_empty (attribute : option string) (b : string) :
  b <> "" -> or_else attribute b <> "".
Proof.
  intros Hb. destruct attribute as [s|]; simpl; [| exact Hb].
  destruct (String.eqb s "") eqn:E; [exact Hb |].
  intros ->. discriminate.
Qed.

(** X12.  When the declared names of the fields of a structured type are
    not empty, no key of the properties of its object node is empty: an
    empty alias gives way to the declared name. *)
Theorem property_keys_are_not_empty (cls : ModelClass pytype) (a d : option string)
    (o : bool) (properties : list (string * SchemaNode)) :
  (forall name field, In (name, field) (model_fields cls) -> name <> "") ->
  derive (TModel cls) a d o = Ok (ObjectField a d o properties) ->
  forall key v, In (key, v) properties -> key <> "".
Proof.
  intros Hnames H key v Hin. rewrite map_to_type_model_entries in H.
  destruct (mapM (derive_entry derive) (annotated (model_fields cls)))
    as [entries| |] eqn:E; simpl in H; try discriminate.
  injection H as <-.
  destruct (model_entry_origin cls entries key v E Hin)
    as [name [field [ann [Hf [_ [-> _]]]]]].
  apply or_else_not_empty. eapply Hnames. exact Hf.
Qed.

(** ** The assembler *)

Lemma table_of_Raise (doc : ModelClass pytype) (e : exn) :
  table_of set_iter subclasscheck_guarded doc = Raise e <->
  derive (TModel doc) None None false = Raise e.
Proof.
  unfold table_of. rewrite map_to_type_model.
  destruct (properties_of derive (model_fields doc) []) as [ps| |]; simpl;
    split; intros H; try discriminate; injection H as ->; reflexivity.
Qed.

(** X13.  Assembling fails only with the exception of one of its
    documents: reading [properties] off the node of a document never
    fails. *)
Theorem assembling_fails_only_with_a_document (documents : list (ModelClass pytype))
    (e : exn) :
  map_documents_to_tables set_iter subclasscheck_guarded documents = Raise e ->
  exists doc, In doc documents /\ derive (TModel doc) None None false = Raise e.
Proof.
  intros H. apply mapM_Raise_inv in H. destruct H as [doc [Hin Hr]].
  exists doc. split; [exact Hin | apply table_of_Raise; exact Hr].
Qed.

(** X14.  Assembling fails with the exception of the first document, in
    the order of the input, whose derivation fails; no table is returned
    for the documents before it. *)
Theorem assembling_fails_with_the_first_failing_document
    (pre post : list (ModelClass pytype)) (doc : ModelClass pytype) (e : exn) :
  (forall p, In p pre -> exists n, derive (TModel p) None None false = Ok n) ->
  derive (TModel doc) None None false = Raise e ->
  map_documents_to_tables set_iter subclasscheck_guarded (pre ++ doc :: post) = Raise e.
Proof.
  intros Hpre Hdoc. apply mapM_first_Raise.
  - intros p Hp. destruct (Hpre p Hp) as [n Hn]. eapply table_of_succeeds, Hn.
  - apply table_of_Raise. exact Hdoc.
Qed.


(** X16.  When the names of the document types are not empty, no table
    has an empty name: an empty collection or table name gives way to the
    next name of the chain. *)
Theorem table_names_are_not_empty (documents : list (ModelClass pytype))
    (tables : list Table) :
  (forall doc, In doc documents -> cls_name doc <> "") ->
  map_documents_to_tables set_iter subclasscheck_guarded documents = Ok tables ->
  Forall (fun t => table_name t <> "") tables.
Proof.
  intros Hnames H. apply mapM_Ok_inv in H.
  apply (Forall2_Forall_r _ _ _ _ H). intros doc t Hin Ht.
  apply table_of_Ok in Ht. destruct Ht as [-> _].
  apply or_else_not_empty, or_else_not_empty. apply Hnames. exact Hin.
Qed.
End Properties.

(** * Instances: the iteration order [set_first] *)


Lemma union_node_of_members_witness :
  exists (optional : bool) (types : list SchemaNode),
    map_to_type set_first true (TUnion [int_; str_; NoneType]) (Some "v") None false
    = Ok (UnionField (Some "v") None optional types)
    /\ length types
       = length (dedup pytype_eqb
                   (filter (fun x => negb (is_none x)) [int_; str_; NoneType]))
    /\ Forall bare_member types
    /\ (optional = true <-> In NoneType [int_; str_; NoneType]).
Proof.
  apply (union_node_of_members set_first true set_first_spec
           [int_; str_; NoneType] (Some "v") None false).
  - vm_compute. apply le_n.
  - intros x [<-|[<-|[<-|[]]]]; reflexivity.
  - intros x [<-|[<-|[<-|[]]]] H; try discriminate; eexists; reflexivity.
Defined.


Lemma union_nodes_have_two_members_witness :
  exists n,
    map_to_type set_first true (TModel Post) None None false = Ok n
    /\ unions_ok n = true.
Proof.
  eexists. split; [vm_compute; reflexivity |].
  apply (union_nodes_have_two_members set_first true set_first_spec
           (TModel Post) None None false); vm_compute; reflexivity.
Defined.


Lemma object_properties_by_key_witness :
  map_to_type set_first true (TModel Clash) None None false
  = (entries <- mapM (derive_entry (map_to_type set_first true))
                  (annotated (model_fields Clash)) ;;
     Ok (ObjectField None None false (dict_of entries)))
  /\ (forall entries,
        mapM (derive_entry (map_to_type set_first true)) (annotated (model_fields Clash))
        = Ok entries ->
        dict_keys entries = map annotated_key (annotated (model_fields Clash))
        /\ (NoDup (map annotated_key (annotated (model_fields Clash))) ->
            dict_of entries = entries))
  /\ (forall name field ann,
        In (name, field, ann) (annotated (model_fields Clash)) ->
        (forall s, declares (field_alias field) s -> annotated_key (name, field, ann) = s)
        /\ (undeclared (field_alias field) -> annotated_key (name, field, ann) = name)).
Proof.
  exact (object_properties_by_key set_first true set_first_spec Clash None None false).
Defined.

Lemma colliding_keys_keep_later_witness :
  exists properties n1 n2,
    map_to_type set_first true (TModel Clash) None None false
    = Ok (ObjectField None None false properties)
    /\ derive_field (map_to_type set_first true) (declared "a" (Some "k") int_, int_) = Ok n1
    /\ derive_field (map_to_type set_first true) (declared "b" (Some "k") str_, str_) = Ok n2
    /\ dict_get "k" properties = Some n2
    /\ (forall v, In ("k", v) properties -> v = n2)
    /\ ~ In ("k", n1) properties.
Proof.
  apply (colliding_keys_keep_later set_first true set_first_spec Clash None None false
           [] [] [] (declared "a" (Some "k") int_, int_) (declared "b" (Some "k") str_, str_)).
  - reflexivity.
  - reflexivity.
  - discriminate.
  - intros f [].
  - intros f [<-|[<-|[]]]; eexists; reflexivity.
Defined.

Lemma one_table_per_document_witness :
  exists tables,
    map_documents_to_tables set_first true [Post; Person] = Ok tables
    /\ Forall2
         (fun doc t =>
            (forall s, declares (cls_collection doc) s -> table_name t = s)
            /\ (undeclared (cls_collection doc) ->
                forall s, declares (cls_table doc) s -> table_name t = s)
            /\ (undeclared (cls_collection doc) -> undeclared (cls_table doc) ->
                table_name t = cls_name doc)
            /\ table_alias t = cls_name doc
            /\ map_to_type set_first true (TModel doc) None None false
               = Ok (ObjectField None None false (table_fields t)))
         [Post; Person] tables.
Proof.
  apply (one_table_per_document set_first true set_first_spec [Post; Person]).
  intros doc [<-|[<-|[]]]; eexists; vm_compute; reflexivity.
Defined.

(** ** The examples of the specification *)

Example primitive_example :
  map_to_type set_first true int_ None None false
  = Ok (PrimitiveField None None false INTEGER).
Proof. reflexivity. Qed.

Example list_example :
  map_to_type set_first true (TGeneric BuiltinAlias origin_list [str_]) None None false
  = Ok (ArrayField None None false (PrimitiveField None None false STRING)).
Proof. reflexivity. Qed.

Example enum_example :
  map_to_type set_first true Color None None false
  = Ok (EnumField None None false "Color"
          [mkVariant (VStr "r") (Some "RED"); mkVariant (VStr "g") (Some "GREEN")])
  /\ map_to_type set_first true (TEnum "Letter" [("A", VStr "A")]) None None false
     = Ok (EnumField None None false "Letter" [mkVariant (VStr "A") None]).
Proof. split; reflexivity. Qed.

Example object_example :
  map_to_type set_first true (TModel Person) None None false
  = Ok (ObjectField None None false
          [("id", PrimitiveField (Some "id") None false INTEGER);
           ("nm", PrimitiveField (Some "name") None false STRING)]).
Proof. reflexivity. Qed.

Example unsupported_example :
  map_to_type set_first true bytes_ None None false
  = Raise (NotImplementedError bytes_)
  /\ map_to_type set_first true
       (TModel (mkModelClass "Blob" None None [declared "raw" None bytes_]))
       None None false
     = Raise (NotImplementedError bytes_).
Proof. split; reflexivity. Qed.

Example tables_example :
  map_documents_to_tables set_first true [Post; Person]
  = Ok [mkTable "posts" "Post"
          [("title", PrimitiveField (Some "title") None true STRING);
           ("tags", ArrayField (Some "tags") None false
                      (UnionField None None true
                         [PrimitiveField None None false INTEGER;
                          PrimitiveField None None false STRING]));
           ("color", EnumField (Some "color") None false "Color"
                       [mkVariant (VStr "r") (Some "RED");
                        mkVariant (VStr "g") (Some "GREEN")]);
           ("by", ObjectField (Some "author") None false
                    [("id", PrimitiveField (Some "id") None false INTEGER);
                     ("nm", PrimitiveField (Some "name") None false STRING)])];
        mkTable "Person" "Person"
          [("id", PrimitiveField (Some "id") None false INTEGER);
           ("nm", PrimitiveField (Some "name") None false STRING)]].
Proof. vm_compute. reflexivity. Qed.

(** * Where the specification and the code part *)


(** C5.  [Orders] declares the collection name [""]; its table is named
    after [__table__]. *)
Lemma empty_collection_name_counterexample :
  exists t,
    cls_collection Orders = Some ""
    /\ map_documents_to_tables set_first true [Orders] = Ok [t]
    /\ table_name t = "orders_tbl"
    /\ table_name t <> "".
Proof.
  eexists. split; [reflexivity |].
  split; [vm_compute; reflexivity |].
  split; [reflexivity | discriminate].
Qed.

(** C6.  The field [id] of [Blank] has the explicit alias [""]; it is
    stored under its declared name. *)
Lemma empty_alias_key_counterexample :
  exists v,
    model_fields Blank = [("id", mkFieldInfo (Some "") None (Some int_))]
    /\ map_to_type set_first true (TModel Blank) None None false
       = Ok (ObjectField None None false [("id", v)])
    /\ "id" <> "".
Proof.
  eexists. split; [reflexivity |].
  split; [vm_compute; reflexivity | discriminate].
Qed.

(** * Engines and client *)

(** X20.  No two engine classes share a type tag: the tag tells the
    class. *)
Theorem engine_type_is_one_to_one (c c' : engine_class) :
  engine_type c = engine_type c' -> c = c'.
Proof. destruct c, c'; simpl; intros H; try discriminate; reflexivity. Qed.

(** X21.  An engine that passes validation carries the tag of its class,
    and a version that is an integer is not negative. *)
Theorem valid_engine_has_its_tag_and_no_negative_version (c : engine_class)
    (version : version_arg) (self_dict : list (string * attr)) :
  new_engine c version = Valid self_dict ->
  dict_get "type" self_dict = Some (AStr (engine_type c))
  /\ forall z, In ("version", AInt z) self_dict -> (0 <= z)%Z.
Proof.
  unfold new_engine. intros H. split.
  - destruct (validate_version c version) as [v|]; [| discriminate].
    injection H as <-. reflexivity.
  - intros z Hin.
    destruct c, version as [| |v]; simpl in H; try discriminate;
      unfold check_ge_0 in H;
      try (destruct (0 <=? v)%Z eqn:E; [| discriminate]);
      injection H as <-; simpl in Hin;
      repeat (destruct Hin as [Hin|Hin]; try discriminate; try contradiction);
      injection Hin as <-; try apply Z.leb_le; try assumption; lia.
Qed.

(** X22.  The representation arguments of a valid engine leave out the
    type tag and nothing else: they are the rest of [__dict__], in
    order. *)
Theorem repr_args_leave_out_the_type_only (c : engine_class) (version : version_arg)
    (self_dict : list (string * attr)) :
  new_engine c version = Valid self_dict ->
  ~ In "type" (dict_keys (repr_args self_dict))
  /\ self_dict = ("type", AStr (engine_type c)) :: repr_args self_dict.
Proof.
  unfold new_engine. intros H.
  destruct (validate_version c version) as [[v|]|]; try discriminate;
    injection H as <-; simpl; split; try reflexivity; intros Hin;
    repeat (destruct Hin as [Hin|Hin]; try discriminate); exact Hin.
Qed.

(** X23.  Registering the schema raises exactly on a status code from 400
    to 599 other than 409; every other status code, redirects included,
    returns silently.  The registration is logged as done exactly on
    status code 200. *)
Theorem register_schema_raises_on_errors_but_409 (status_code : Z) :
  (snd (register_schema status_code) = HTTPError status_code
   <-> (400 <= status_code < 600 /\ status_code <> 409)%Z)
  /\ (snd (register_schema status_code) = Returned
      <-> ~ (400 <= status_code < 600 /\ status_code <> 409)%Z)
  /\ (In "Database schema registered" (fst (register_schema status_code))
      <-> status_code = 200%Z).
Proof.
  unfold register_schema, raise_for_status.
  destruct (Z.eqb_spec status_code 200) as [->|N200]; simpl.
  { split; [| split].
    - split; [discriminate | lia].
    - split; [lia | reflexivity].
    - split; [reflexivity | intros _; right; left; reflexivity]. }
  destruct (Z.eqb_spec status_code 409) as [->|N409]; simpl.
  { split; [| split].
    - split; [discriminate | lia].
    - split; [lia | reflexivity].
    - split; [intros [H|[H|[]]]; discriminate | discriminate]. }
  assert (Hlog : "Registering database schema" = "Database schema registered" \/ False
                 <-> status_code = 200%Z)
    by (split; [intros [H|[]]; discriminate | contradiction]).
  destruct ((400 <=? status_code) && (status_code <? 600))%Z eqn:E; simpl.
  - apply andb_true_iff in E. destruct E as [Elo Ehi].
    apply Z.leb_le in Elo. apply Z.ltb_lt in Ehi.
    split; [| split; [| exact Hlog]].
    + split; [intros _; lia | reflexivity].
    + split; [discriminate | intros H; exfalso; apply H; lia].
  - apply andb_false_iff in E.
    assert (Hout : ~ (400 <= status_code < 600)%Z)
      by (destruct E as [E|E]; [apply Z.leb_gt in E | apply Z.ltb_ge in E]; lia).
    split; [| split; [| exact Hlog]].
    + split; [discriminate | intros [H _]; contradiction].
    + split; [intros _ [H _]; contradiction | reflexivity].
Qed.

(** X24.  [run] is implemented for three pairs of connection and target:
    a pymongo database with Mongo, an SQLAlchemy engine with PostgreSQL
    and a ClickHouse client with ClickHouse.  Every other pair raises
    [NotImplementedError], whatever the query answers and the limit: in
    particular every MySQL, MSSQL, Oracle, SQLite and MariaDB target. *)
Theorem run_is_implemented_for_three_pairs (R : Type)
    (head : option Z -> list R -> list R) (db : connection) (target : engine_class)
    (cursor : list R) (limit : option Z) :
  run R head db target cursor limit = RunNotImplemented target db
  <-> ~ ((db = PymongoDatabase /\ target = Mongo)
         \/ (db = SqlalchemyEngine /\ target = PostgreSQL)
         \/ (db = ClickhouseClient /\ target = ClickHouse)).
Proof.
  destruct db, target; simpl; unfold list_islice;
    try (destruct limit as [n|]; [destruct (n <? 0)%Z |]);
    split; intros H; try discriminate; try reflexivity;
    try (intros [[? ?]|[[? ?]|[? ?]]]; discriminate);
    exfalso; apply H; tauto.
Qed.


(** X26.  The API key of the client: a non-empty [api_key] argument is
    the key; an argument that is left out or empty gives way to the
    environment variable; [KeyError] is raised exactly when the argument
    is left out or empty and the variable is not set. *)
Theorem api_key_falls_back_to_the_environment (api_key environ : option string) :
  (forall k, declares api_key k -> resolve_api_key api_key environ = Some k)
  /\ (undeclared api_key -> resolve_api_key api_key environ = environ)
  /\ (resolve_api_key api_key environ = None
      <-> undeclared api_key /\ environ = None).
Proof.
  unfold resolve_api_key, declares, undeclared. split; [| split].
  - intros k [-> Hk]. destruct (String.eqb k "") eqn:E; [| reflexivity].
    apply String.eqb_eq in E. contradiction.
  - intros [->| ->]; reflexivity.
  - destruct api_key as [k|].
    + destruct (String.eqb k "") eqn:E.
      * apply String.eqb_eq in E. subst k. split; [auto |]. intros [_ ->]. reflexivity.
      * split; [discriminate |]. intros [[H|H] _]; [discriminate |].
        injection H as ->. discriminate.
    + split; [auto |]. intros [_ ->]. reflexivity.
Qed.

(** * Instances of the further properties *)

Lemma alias_and_description_label_the_root_witness :
  map_to_type set_first true (TUnion [str_; NoneType]) (Some "name") (Some "full name") false
  = omap (relabel (Some "name") (Some "full name"))
      (map_to_type set_first true (TUnion [str_; NoneType]) None None false).
Proof.
  exact (alias_and_description_label_the_root set_first true set_first_spec
           (TUnion [str_; NoneType]) (Some "name") (Some "full name") false).
Defined.

Lemma failure_depends_on_the_annotation_only_witness :
  map_to_type set_first true (TModel Blob) (Some "blob") None true
  = Raise (NotImplementedError bytes_)
  <-> map_to_type set_first true (TModel Blob) None None false
      = Raise (NotImplementedError bytes_).
Proof.
  exact (failure_depends_on_the_annotation_only set_first true set_first_spec
           (TModel Blob) (Some "blob") None None None true false
           (NotImplementedError bytes_)).
Defined.

Lemma optional_flag_of_the_node_witness :
  exists n,
    map_to_type set_first true (TUnion [int_; str_; NoneType]) None None false = Ok n
    /\ node_optional n = true.
Proof.
  eexists. split; [vm_compute; reflexivity |].
  apply (optional_flag_of_the_node set_first true set_first_spec
           (TUnion [int_; str_; NoneType]) None None false);
    vm_compute; reflexivity.
Defined.

Lemma property_is_optional_iff_annotation_admits_none_witness :
  exists properties,
    map_to_type set_first true (TModel Post) None None false
    = Ok (ObjectField None None false properties)
    /\ forall key v, In (key, v) properties ->
       exists name field ann,
         In (name, field) (model_fields Post)
         /\ field_annotation field = Some ann
         /\ key = or_else (field_alias field) name
         /\ node_optional v = admits_none ann.
Proof.
  eexists. split; [vm_compute; reflexivity |].
  apply (property_is_optional_iff_annotation_admits_none set_first true set_first_spec
           Post None None false).
  - intros name field ann Hin Hann. simpl in Hin.
    destruct Hin as [H|[H|[H|[H|[]]]]]; injection H as <- <-; simpl in Hann;
      injection Hann as <-; reflexivity.
  - vm_compute. reflexivity.
Defined.

Lemma node_class_follows_shape_witness :
  exists n,
    map_to_type set_first true Color (Some "color") None false = Ok n
    /\ shape_matches Color n = true.
Proof.
  eexists. split; [vm_compute; reflexivity |].
  apply (node_class_follows_shape set_first true set_first_spec
           Color (Some "color") None false); reflexivity.
Defined.

Lemma list_item_is_the_standalone_derivation_witness :
  map_to_type set_first true (TGeneric TypingAlias origin_list [Color]) (Some "c") None true
  = omap (ArrayField (Some "c") None true)
      (map_to_type set_first true Color None None false).
Proof.
  exact (list_item_is_the_standalone_derivation set_first true set_first_spec
           TypingAlias Color (Some "c") None true).
Defined.

Lemma object_fails_with_its_first_failing_field_witness :
  map_to_type set_first true (TModel Blob) None None false
  = Raise (NotImplementedError bytes_).
Proof.
  apply (object_fails_with_its_first_failing_field set_first true set_first_spec
           Blob None None false
           [(declared "id" None int_, int_)] [(declared "size" None int_, int_)]
           (declared "raw" None bytes_, bytes_)).
  - reflexivity.
  - intros g [<-|[]]. eexists. reflexivity.
  - reflexivity.
Defined.

Lemma union_node_children_are_the_members_witness :
  exists n types,
    map_to_type set_first true (TUnion [int_; NoneType; str_]) (Some "v") None false = Ok n
    /\ n = UnionField (Some "v") None (existsb is_none [int_; NoneType; str_]) types
    /\ Forall2 (fun x v => map_to_type set_first true x None None false = Ok v)
         (members set_first [int_; NoneType; str_]) types
    /\ (forall x, In x [int_; NoneType; str_] -> is_none x = false ->
          exists v, In v types /\ map_to_type set_first true x None None false = Ok v).
Proof.
  eexists.
  assert (H : map_to_type set_first true (TUnion [int_; NoneType; str_]) (Some "v") None false
              = Ok (UnionField (Some "v") None true
                      [PrimitiveField None None false INTEGER;
                       PrimitiveField None None false STRING]))
    by (vm_compute; reflexivity).
  destruct (union_node_children_are_the_members set_first true set_first_spec
              [int_; NoneType; str_] (Some "v") None false _
              ltac:(vm_compute; apply le_n) H) as [types Ht].
  exists types. split; [exact H | exact Ht].
Defined.

Lemma raised_exception_names_an_inner_annotation_witness :
  NotImplementedError bytes_ = TypeError "issubclass() arg 1 must be a class"
  \/ exists u,
       NotImplementedError bytes_ = NotImplementedError u
       /\ occurs_in u (TModel Blob) = true /\ refused u = true.
Proof.
  apply (raised_exception_names_an_inner_annotation set_first true set_first_spec
           (TModel Blob) None None false).
  vm_compute. reflexivity.
Defined.

Lemma object_keys_are_distinct_witness :
  exists n,
    map_to_type set_first true (TModel Clash) None None false = Ok n
    /\ keys_distinct n = true.
Proof.
  eexists. split; [vm_compute; reflexivity |].
  apply (object_keys_are_distinct set_first true set_first_spec
           (TModel Clash) None None false).
  vm_compute. reflexivity.
Defined.

Lemma property_keys_are_not_empty_witness :
  exists properties,
    map_to_type set_first true (TModel Blank) None None false
    = Ok (ObjectField None None false properties)
    /\ forall key v, In (key, v) properties -> key <> "".
Proof.
  eexists. split; [vm_compute; reflexivity |].
  apply (property_keys_are_not_empty set_first true set_first_spec Blank None None false).
  - intros name field Hin. simpl in Hin. destruct Hin as [H|[]].
    injection H as <- _. discriminate.
  - vm_compute. reflexivity.
Defined.

Lemma assembling_fails_only_with_a_document_witness :
  exists doc,
    In doc [Person; Blob; Post]
    /\ map_to_type set_first true (TModel doc) None None false
       = Raise (NotImplementedError bytes_).
Proof.
  apply (assembling_fails_only_with_a_document set_first true set_first_spec
           [Person; Blob; Post]).
  vm_compute. reflexivity.
Defined.

Lemma assembling_fails_with_the_first_failing_document_witness :
  map_documents_to_tables set_first true ([Person] ++ Blob :: [Post])
  = Raise (NotImplementedError bytes_).
Proof.
  apply (assembling_fails_with_the_first_failing_document set_first true set_first_spec
           [Person] [Post] Blob).
  - intros p [<-|[]]. eexists. vm_compute. reflexivity.
  - vm_compute. reflexivity.
Defined.

Lemma table_names_are_not_empty_witness :
  exists tables,
    map_documents_to_tables set_first true [Orders; Person] = Ok tables
    /\ Forall (fun t => table_name t <> "") tables.
Proof.
  eexists. split; [vm_compute; reflexivity |].
  apply (table_names_are_not_empty set_first true set_first_spec [Orders; Person]).
  - intros doc [<-|[<-|[]]]; discriminate.
  - vm_compute. reflexivity.
Defined.

Lemma unsupported_class_is_named_witness :
  map_to_type set_first true NoneType None None false
  = Raise (NotImplementedError NoneType).
Proof.
  apply (unsupported_class_is_named set_first true py_NoneType None None false).
  reflexivity.
Defined.

Lemma unsupported_generic_no_node_witness :
  map_to_type set_first false (TGeneric BuiltinAlias origin_list [int_; str_]) None None false
  <> Ok (ArrayField None None false (PrimitiveField None None false INTEGER)).
Proof.
  apply (unsupported_generic_no_node set_first false set_first_spec
           BuiltinAlias origin_list [int_; str_] None None false).
  intros _. discriminate.
Defined.

Lemma unsupported_builtin_alias_is_named_witness :
  map_to_type set_first true (TGeneric BuiltinAlias (origin_other "dict") [str_; int_])
    None None false
  = Raise (NotImplementedError (TGeneric BuiltinAlias (origin_other "dict") [str_; int_])).
Proof.
  apply (unsupported_builtin_alias_is_named set_first true set_first_spec
           (origin_other "dict") [str_; int_] None None false).
  - reflexivity.
  - discriminate.
Defined.

Lemma engine_type_is_one_to_one_witness : PostgreSQL = PostgreSQL.
Proof. apply (engine_type_is_one_to_one PostgreSQL PostgreSQL). reflexivity. Defined.

Lemma valid_engine_has_its_tag_and_no_negative_version_witness :
  dict_get "type" [("type", AStr "postgres"); ("version", AInt 16)]
  = Some (AStr (engine_type PostgreSQL))
  /\ forall z, In ("version", AInt z) [("type", AStr "postgres"); ("version", AInt 16)] ->
     (0 <= z)%Z.
Proof.
  apply (valid_engine_has_its_tag_and_no_negative_version PostgreSQL (Given 16)).
  reflexivity.
Defined.

Lemma repr_args_leave_out_the_type_only_witness :
  ~ In "type" (dict_keys (repr_args [("type", AStr "mongo"); ("version", AInt 8)]))
  /\ [("type", AStr "mongo"); ("version", AInt 8)]
     = ("type", AStr (engine_type Mongo))
       :: repr_args [("type", AStr "mongo"); ("version", AInt 8)].
Proof.
  apply (repr_args_leave_out_the_type_only Mongo NotGiven).
  reflexivity.
Defined.

